(** * Medical LMS backend: tenant scoping, enrollment gating, progress upsert

    A shallow embedding of the request handlers of
    [backend/app/routers/{auth,courses,content}.py] over the tables of
    [backend/app/models.py].

    Conventions of the embedding.
    - A table is the list of its rows, in storage order.  A query
      [db.query(T).filter(c1, c2).first()] is the first row satisfying the
      conjunction of the conditions, [.all()] is every such row in order.
    - Path parameters that the handlers compare with UUID columns are taken
      as already converted UUIDs; a string the database driver cannot convert
      is a driver error outside of the handlers.
    - [uuid.uuid4()] and [datetime.utcnow()] are inputs of a handler.
    - The audit columns [created_at] and [updated_at], which no handler reads,
      are left out of the rows.  Nullable boolean flags are taken with their
      column defaults, that is as booleans.
    - [db.add(row)] followed by [db.commit()] appends the row; no handler can
      raise between the two.  Assigning to the attributes of a fetched row and
      committing rewrites that row where it is stored.  A database is free to
      hand the rows of a query back in another order after such an update;
      this shows only where several rows match a [.first()], so statements
      that read a row back after it was rewritten are made for tables in
      which the lookup has at most one match. *)

From Stdlib Require Import Ascii String.
From stdpp Require Import base strings option numbers list sorting.

Open Scope Z_scope.

(** ** Primitive data *)

(** A 128-bit identifier, opaque to the handlers. *)
Abbreviation UUID := N (only parsing).

(** A naive UTC [datetime], as a count of microseconds. *)
Abbreviation datetime := Z (only parsing).

Inductive UserRole := ADMIN | FACULTY | STUDENT.

Inductive ContentType := PDF | VIDEO | TEXT.

#[global] Instance UserRole_eq_dec : EqDecision UserRole.
Proof. solve_decision. Defined.

#[global] Instance ContentType_eq_dec : EqDecision ContentType.
Proof. solve_decision. Defined.

(** [UserRole.X.value] and [ContentType.X.value] *)
Definition UserRole_value (r : UserRole) : string :=
  match r with ADMIN => "ADMIN" | FACULTY => "FACULTY" | STUDENT => "STUDENT" end.

Definition ContentType_value (c : ContentType) : string :=
  match c with PDF => "PDF" | VIDEO => "VIDEO" | TEXT => "TEXT" end.

(** [UserRole[name]]: lookup of an enumeration member by name; [None] stands
    for the [KeyError] of a name that is not a member. *)
Definition UserRole_getitem (name : string) : option UserRole :=
  if decide (name = "ADMIN") then Some ADMIN
  else if decide (name = "FACULTY") then Some FACULTY
  else if decide (name = "STUDENT") then Some STUDENT
  else None.

(** ** Tables ([models.py]) *)

Module Tenant.
Record t := mk {
  id : UUID;
  name : string;
  domain : option string;
  is_active : bool
}.
End Tenant.

Module User.
Record t := mk {
  id : UUID;
  tenant_id : UUID;
  email : string;
  password_hash : string;
  full_name : string;
  phone : option string;
  role : UserRole;
  is_active : bool
}.
End User.

Module Course.
Record t := mk {
  id : UUID;
  tenant_id : UUID;
  dept_id : option UUID;
  title : string;
  code : option string;
  description : option string;
  faculty_name : option string;
  is_active : bool
}.
End Course.

Module CourseEnrollment.
Record t := mk {
  id : UUID;
  course_id : UUID;
  student_id : UUID;
  tenant_id : UUID
}.
End CourseEnrollment.

Module Module.
Record t := mk {
  id : UUID;
  tenant_id : UUID;
  course_id : UUID;
  title : string;
  sequence_order : Z
}.
End Module.

Module ContentItem.
Record t := mk {
  id : UUID;
  tenant_id : UUID;
  module_id : UUID;
  title : string;
  type : ContentType;
  file_url : option string;
  text_content : option string;
  duration_minutes : option Z;
  sequence_order : Z
}.
End ContentItem.

Module LessonProgress.
Record t := mk {
  id : UUID;
  student_id : UUID;
  content_item_id : UUID;
  is_completed : bool;
  completed_at : option datetime
}.
End LessonProgress.

(** The database: one list of rows per table that a handler touches. *)
Record DB := mkDB {
  tenants : list Tenant.t;
  users : list User.t;
  courses : list Course.t;
  course_enrollments : list CourseEnrollment.t;
  modules : list Module.t;
  content_items : list ContentItem.t;
  lesson_progress : list LessonProgress.t
}.

Definition empty_db : DB := mkDB [] [] [] [] [] [] [].

Definition set_tenants (f : list Tenant.t → list Tenant.t) (db : DB) : DB :=
  mkDB (f (tenants db)) (users db) (courses db) (course_enrollments db)
       (modules db) (content_items db) (lesson_progress db).

Definition set_users (f : list User.t → list User.t) (db : DB) : DB :=
  mkDB (tenants db) (f (users db)) (courses db) (course_enrollments db)
       (modules db) (content_items db) (lesson_progress db).

Definition set_lesson_progress
    (f : list LessonProgress.t → list LessonProgress.t) (db : DB) : DB :=
  mkDB (tenants db) (users db) (courses db) (course_enrollments db)
       (modules db) (content_items db) (f (lesson_progress db)).

(** ** Queries *)

Section Query.
Context {A : Type} (P : A → Prop) `{!∀ x, Decision (P x)}.

(** [db.query(T).filter(P).all()] *)
Definition query_all (table : list A) : list A := filter P table.

(** [db.query(T).filter(P).first()] *)
Definition query_first (table : list A) : option A := head (filter P table).

(** The same first row together with the place it is stored at, for a row
    that the handler goes on to modify. *)
Definition query_first_at (table : list A) : option (nat * A) :=
  list_find P table.
End Query.

(** [.order_by(key)]: ascending by [key], rows of equal key in table order. *)
Section OrderBy.
Context {A : Type} (key : A → Z).

Fixpoint insert_by (x : A) (l : list A) : list A :=
  match l with
  | [] => [x]
  | y :: l' => if decide (key x ≤ key y) then x :: l else y :: insert_by x l'
  end.

Definition order_by (l : list A) : list A := foldr insert_by [] l.
End OrderBy.

(** ** Exceptions and results *)

Inductive exn :=
| HTTPException (status_code : Z) (detail : string)
| AttributeError (msg : string)
| ValueError (msg : string)
| TypeError (msg : string)
| KeyError (key : string).

Definition HTTP_400_BAD_REQUEST : Z := 400.
Definition HTTP_401_UNAUTHORIZED : Z := 401.
Definition HTTP_403_FORBIDDEN : Z := 403.
Definition HTTP_404_NOT_FOUND : Z := 404.

Inductive result (A : Type) :=
| Ok (a : A)
| Raise (e : exn).
Arguments Ok {A} a.
Arguments Raise {A} e.

#[global] Instance result_ret : MRet result := λ A a, Ok a.
#[global] Instance result_bind : MBind result :=
  λ A B f m, match m with Ok a => f a | Raise e => Raise e end.

(** [x if x is not None else raise e] for the [if not row: raise ...] that
    follows a [.first()]. *)
Definition or_raise {A} (e : exn) (o : option A) : result A :=
  match o with Some a => Ok a | None => Raise e end.

(** A handler that writes: it runs on a database and leaves a database,
    whether it returns or raises. *)
Definition Handler (A : Type) : Type := DB → result A * DB.

#[global] Instance Handler_ret : MRet Handler := λ A a db, (Ok a, db).
#[global] Instance Handler_bind : MBind Handler :=
  λ A B f m db,
    match m db with
    | (Ok a, db') => f a db'
    | (Raise e, db') => (Raise e, db')
    end.

Definition raise {A} (e : exn) : Handler A := λ db, (Raise e, db).
Definition query {A} (q : DB → A) : Handler A := λ db, (Ok (q db), db).
Definition update (f : DB → DB) : Handler unit := λ db, (Ok (), f db).
Definition lift {A} (r : result A) : Handler A := λ db, (r, db).

(** [result = []; for x in xs: body] where the body may append to the result. *)
Definition for_loop {A B} (body : A → list B → list B) (xs : list A) : list B :=
  foldl (λ acc x, body x acc) [] xs.

(** ** Collaborators outside of the routers

    [app.auth] (password hashing, token issuance) and the Python built-ins
    the handlers call are taken as given. *)
Class Lib := {
  (** [str(u)] of a UUID *)
  str_of_UUID : UUID → string;
  (** [uuid.UUID(s)]; [None] stands for its [ValueError] *)
  UUID_of_str : string → option UUID;
  (** [s.upper()] *)
  str_upper : string → string;
  (** [app.auth.hash_password] *)
  hash_password : string → string;
  (** [app.auth.verify_password(plain, hashed)] *)
  verify_password : string → string → bool;
  (** [app.auth.create_token(subject)] *)
  create_token : string → string
}.

(** ** Response models *)

Module CourseBasic.
Record t := mk {
  id : string;
  title : string;
  code : option string;
  faculty_name : option string
}.
End CourseBasic.

Module CourseDetail.
Record t := mk {
  id : string;
  title : string;
  code : option string;
  description : option string;
  faculty_name : option string
}.
End CourseDetail.

Module ModuleResponse.
Record t := mk {
  id : string;
  title : string;
  sequence_order : Z
}.
End ModuleResponse.

Module LessonBasic.
Record t := mk {
  id : string;
  title : string;
  content_type : string;
  duration_minutes : option Z;
  sequence_order : Z;
  is_completed : bool
}.
End LessonBasic.

Module LessonDetail.
Record t := mk {
  id : string;
  title : string;
  content_type : string;
  file_url : option string;
  text_content : option string;
  duration_minutes : option Z;
  sequence_order : Z;
  is_completed : bool
}.
End LessonDetail.

Module CompleteResponse.
Record t := mk {
  message : string;
  lesson_id : string;
  completed_at : datetime
}.
End CompleteResponse.

Module TokenResponse.
Record t := mk {
  access_token : string;
  token_type : string
}.
End TokenResponse.

Module UserResponse.
Record t := mk {
  id : string;
  email : string;
  full_name : string;
  role : string;
  tenant_id : string
}.
End UserResponse.

(** ** Request models ([routers/auth.py]) *)

(** The declared fields of [SignupRequest]; the declaration of [tenant_id]
    is commented out in the source, so the model has no such field. *)
Module SignupRequest.
Record t := mk {
  email : string;
  password : string;
  full_name : string;
  phone : option string;
  role : string
}.
End SignupRequest.

Module LoginRequest.
Record t := mk {
  email : string;
  password : string
}.
End LoginRequest.

(** The Python values an attribute of a request model can hold. *)
Inductive PyValue :=
| PyNone
| PyStr (s : string).

(** Truth value of [if v:]: [None] and the empty string are false. *)
Definition truthy (v : PyValue) : bool :=
  match v with
  | PyNone => false
  | PyStr s => bool_decide (s ≠ "")
  end.

(** [signup_data.<name>]: a request model has the attributes of its declared
    fields and no other; reading another one raises [AttributeError]. *)
Definition SignupRequest_getattr (signup_data : SignupRequest.t) (name : string)
    : result PyValue :=
  if decide (name = "email") then Ok (PyStr (SignupRequest.email signup_data))
  else if decide (name = "password") then
    Ok (PyStr (SignupRequest.password signup_data))
  else if decide (name = "full_name") then
    Ok (PyStr (SignupRequest.full_name signup_data))
  else if decide (name = "phone") then
    Ok (from_option PyStr PyNone (SignupRequest.phone signup_data))
  else if decide (name = "role") then Ok (PyStr (SignupRequest.role signup_data))
  else Raise (AttributeError
                ("'SignupRequest' object has no attribute '" +:+ name +:+ "'")).

Section Routers.
Context {lib : Lib}.

(** ** [routers/courses.py] *)

(** The filter of every enrollment check: a row for this course and this
    student in the student's tenant. *)
Definition enrollment_for (course_id : UUID) (current_user : User.t)
    (e : CourseEnrollment.t) : Prop :=
  CourseEnrollment.course_id e = course_id ∧
  CourseEnrollment.student_id e = User.id current_user ∧
  CourseEnrollment.tenant_id e = User.tenant_id current_user.

#[global] Instance enrollment_for_dec course_id current_user e :
  Decision (enrollment_for course_id current_user e).
Proof. unfold enrollment_for. apply _. Defined.

Definition not_enrolled : exn :=
  HTTPException HTTP_403_FORBIDDEN "You are not enrolled in this course".

Definition CourseBasic_of (course : Course.t) : CourseBasic.t :=
  CourseBasic.mk (str_of_UUID (Course.id course)) (Course.title course)
                 (Course.code course) (Course.faculty_name course).

(** GET /courses/my-courses *)
Definition get_my_courses (current_user : User.t) (db : DB) : list CourseBasic.t :=
  let enrollments :=
    query_all (λ e, CourseEnrollment.student_id e = User.id current_user ∧
                    CourseEnrollment.tenant_id e = User.tenant_id current_user)
              (course_enrollments db) in
  for_loop (λ enrollment courses_,
    let course :=
      query_first (λ c, Course.id c = CourseEnrollment.course_id enrollment ∧
                        Course.is_active c = true)
                  (courses db) in
    match course with
    | Some course => courses_ ++ [CourseBasic_of course]
    | None => courses_
    end) enrollments.

Definition CourseDetail_of (course : Course.t) : CourseDetail.t :=
  CourseDetail.mk (str_of_UUID (Course.id course)) (Course.title course)
                  (Course.code course) (Course.description course)
                  (Course.faculty_name course).

(** GET /courses/{course_id} *)
Definition get_course_detail (course_id : UUID) (current_user : User.t) (db : DB)
    : result CourseDetail.t :=
  enrollment ← or_raise not_enrolled
    (query_first (enrollment_for course_id current_user) (course_enrollments db));
  course ← or_raise (HTTPException HTTP_404_NOT_FOUND "Course not found")
    (query_first (λ c, Course.id c = course_id ∧ Course.is_active c = true)
                 (courses db));
  mret (CourseDetail_of course).

Definition ModuleResponse_of (module : Module.t) : ModuleResponse.t :=
  ModuleResponse.mk (str_of_UUID (Module.id module)) (Module.title module)
                    (Module.sequence_order module).

(** GET /courses/{course_id}/modules *)
Definition get_course_modules (course_id : UUID) (current_user : User.t) (db : DB)
    : result (list ModuleResponse.t) :=
  enrollment ← or_raise not_enrolled
    (query_first (enrollment_for course_id current_user) (course_enrollments db));
  let modules_ :=
    order_by Module.sequence_order
      (query_all (λ m, Module.course_id m = course_id ∧
                       Module.tenant_id m = User.tenant_id current_user)
                 (modules db)) in
  mret (ModuleResponse_of <$> modules_).

(** ** [routers/content.py] *)

(** The filter of every progress lookup: the row of this student for this
    lesson. *)
Definition progress_for (current_user : User.t) (lesson : ContentItem.t)
    (p : LessonProgress.t) : Prop :=
  LessonProgress.student_id p = User.id current_user ∧
  LessonProgress.content_item_id p = ContentItem.id lesson.

#[global] Instance progress_for_dec current_user lesson p :
  Decision (progress_for current_user lesson p).
Proof. unfold progress_for. apply _. Defined.

(** [progress.is_completed if progress else False] *)
Definition is_completed_of (progress : option LessonProgress.t) : bool :=
  match progress with
  | Some progress => LessonProgress.is_completed progress
  | None => false
  end.

(** [module.course_id] where [module] is what [.first()] gave: reading an
    attribute of [None] raises. *)
Definition getattr_course_id (module : option Module.t) : result UUID :=
  match module with
  | Some module => Ok (Module.course_id module)
  | None => Raise (AttributeError "'NoneType' object has no attribute 'course_id'")
  end.

Definition LessonBasic_of (lesson : ContentItem.t)
    (progress : option LessonProgress.t) : LessonBasic.t :=
  LessonBasic.mk (str_of_UUID (ContentItem.id lesson)) (ContentItem.title lesson)
                 (ContentType_value (ContentItem.type lesson))
                 (ContentItem.duration_minutes lesson)
                 (ContentItem.sequence_order lesson)
                 (is_completed_of progress).

(** GET /content/{module_id}/lessons *)
Definition get_module_lessons (module_id : UUID) (current_user : User.t) (db : DB)
    : result (list LessonBasic.t) :=
  module ← or_raise (HTTPException HTTP_404_NOT_FOUND "Module not found")
    (query_first (λ m, Module.id m = module_id ∧
                       Module.tenant_id m = User.tenant_id current_user)
                 (modules db));
  enrollment ← or_raise not_enrolled
    (query_first (enrollment_for (Module.course_id module) current_user)
                 (course_enrollments db));
  let lessons :=
    order_by ContentItem.sequence_order
      (query_all (λ l, ContentItem.module_id l = module_id ∧
                       ContentItem.tenant_id l = User.tenant_id current_user)
                 (content_items db)) in
  mret (for_loop (λ lesson result_,
          let progress :=
            query_first (progress_for current_user lesson) (lesson_progress db) in
          result_ ++ [LessonBasic_of lesson progress]) lessons).

Definition LessonDetail_of (lesson : ContentItem.t)
    (progress : option LessonProgress.t) : LessonDetail.t :=
  LessonDetail.mk (str_of_UUID (ContentItem.id lesson)) (ContentItem.title lesson)
                  (ContentType_value (ContentItem.type lesson))
                  (ContentItem.file_url lesson) (ContentItem.text_content lesson)
                  (ContentItem.duration_minutes lesson)
                  (ContentItem.sequence_order lesson)
                  (is_completed_of progress).

Definition lesson_not_found : exn :=
  HTTPException HTTP_404_NOT_FOUND "Lesson not found".

(** The lesson lookup shared by the two lesson endpoints: by id, in the
    requester's tenant. *)
Definition lesson_in_tenant (lesson_id : UUID) (current_user : User.t)
    (l : ContentItem.t) : Prop :=
  ContentItem.id l = lesson_id ∧
  ContentItem.tenant_id l = User.tenant_id current_user.

#[global] Instance lesson_in_tenant_dec lesson_id current_user l :
  Decision (lesson_in_tenant lesson_id current_user l).
Proof. unfold lesson_in_tenant. apply _. Defined.

(** GET /content/lesson/{lesson_id} *)
Definition get_lesson_content (lesson_id : UUID) (current_user : User.t) (db : DB)
    : result LessonDetail.t :=
  lesson ← or_raise lesson_not_found
    (query_first (lesson_in_tenant lesson_id current_user) (content_items db));
  let module :=
    query_first (λ m, Module.id m = ContentItem.module_id lesson) (modules db) in
  course_id ← getattr_course_id module;
  enrollment ← or_raise not_enrolled
    (query_first (enrollment_for course_id current_user) (course_enrollments db));
  let progress :=
    query_first (progress_for current_user lesson) (lesson_progress db) in
  mret (LessonDetail_of lesson progress).

(** The two branches of the upsert. *)
Definition completed (progress : LessonProgress.t) (completed_time : datetime)
    : LessonProgress.t :=
  LessonProgress.mk (LessonProgress.id progress)
                    (LessonProgress.student_id progress)
                    (LessonProgress.content_item_id progress)
                    true (Some completed_time).

Definition new_progress (uuid4 : UUID) (current_user : User.t)
    (lesson : ContentItem.t) (completed_time : datetime) : LessonProgress.t :=
  LessonProgress.mk uuid4 (User.id current_user) (ContentItem.id lesson)
                    true (Some completed_time).

(** POST /content/lesson/{lesson_id}/complete *)
Definition mark_lesson_complete (lesson_id : UUID) (current_user : User.t)
    (uuid4 : UUID) (utcnow : datetime) : Handler CompleteResponse.t :=
  lesson ← query (λ db,
    query_first (lesson_in_tenant lesson_id current_user) (content_items db));
  lesson ← lift (or_raise lesson_not_found lesson);
  module ← query (λ db,
    query_first (λ m, Module.id m = ContentItem.module_id lesson) (modules db));
  course_id ← lift (getattr_course_id module);
  enrollment ← query (λ db,
    query_first (enrollment_for course_id current_user) (course_enrollments db));
  _ ← lift (or_raise not_enrolled enrollment);
  progress ← query (λ db,
    query_first_at (progress_for current_user lesson) (lesson_progress db));
  let completed_time := utcnow in
  _ ← match progress with
      | Some (i, progress) =>
          update (set_lesson_progress (λ rows,
            <[i := completed progress completed_time]> rows))
      | None =>
          update (set_lesson_progress (λ rows,
            rows ++ [new_progress uuid4 current_user lesson completed_time]))
      end;
  mret (CompleteResponse.mk "Lesson marked as complete"
          (str_of_UUID (ContentItem.id lesson)) completed_time).

(** ** [routers/auth.py] *)

Definition valid_roles : list string := ["ADMIN"; "FACULTY"; "STUDENT"].

(** [', '.join(parts)] *)
Fixpoint join (sep : string) (parts : list string) : string :=
  match parts with
  | [] => ""
  | [s] => s
  | s :: rest => s +:+ sep +:+ join sep rest
  end.

Definition email_registered : exn :=
  HTTPException HTTP_400_BAD_REQUEST "Email already registered".

Definition invalid_role : exn :=
  HTTPException HTTP_400_BAD_REQUEST
    ("Invalid role. Must be one of: " +:+ join ", " valid_roles).

(** The tenant created when the table of tenants is empty. *)
Definition default_tenant_row (uuid4 : UUID) : Tenant.t :=
  Tenant.mk uuid4 "Default Medical College" (Some "default.medlms.com") true.

(** [uuid.UUID(v)] on the value of an attribute that tested true. *)
Definition uuid_UUID (v : PyValue) : result UUID :=
  match v with
  | PyStr s => or_raise (ValueError "badly formed hexadecimal UUID string")
                        (UUID_of_str s)
  | PyNone => Raise (TypeError "one of the hex, bytes, bytes_le, fields, or int arguments must be given")
  end.

(** The [if signup_data.tenant_id: ... else: ...] block of [signup], from
    the value of the attribute on. *)
Definition resolve_tenant (tenant_attr : PyValue) (uuid4 : UUID) : Handler UUID :=
  if truthy tenant_attr then lift (uuid_UUID tenant_attr)
  else
    default_tenant ← query (λ db, head (tenants db));
    match default_tenant with
    | Some default_tenant => mret (Tenant.id default_tenant)
    | None =>
        let default_tenant := default_tenant_row uuid4 in
        _ ← update (set_tenants (λ rows, rows ++ [default_tenant]));
        mret (Tenant.id default_tenant)
    end.

Definition UserResponse_of (user : User.t) : UserResponse.t :=
  UserResponse.mk (str_of_UUID (User.id user)) (User.email user)
                  (User.full_name user) (UserRole_value (User.role user))
                  (str_of_UUID (User.tenant_id user)).

(** POST /auth/signup.  [uuid4_tenant] and [uuid4_user] are what the two
    calls of [uuid.uuid4()] give, in the order of the source. *)
Definition signup (signup_data : SignupRequest.t) (uuid4_tenant uuid4_user : UUID)
    : Handler UserResponse.t :=
  existing_user ← query (λ db,
    query_first (λ u, User.email u = SignupRequest.email signup_data) (users db));
  _ ← match existing_user with
      | Some _ => raise email_registered
      | None => mret ()
      end;
  _ ← (if decide (str_upper (SignupRequest.role signup_data) ∈ valid_roles)
       then mret () else raise invalid_role);
  tenant_attr ← lift (SignupRequest_getattr signup_data "tenant_id");
  tenant_id ← resolve_tenant tenant_attr uuid4_tenant;
  role ← lift (or_raise (KeyError (str_upper (SignupRequest.role signup_data)))
                 (UserRole_getitem (str_upper (SignupRequest.role signup_data))));
  let new_user :=
    User.mk uuid4_user tenant_id (SignupRequest.email signup_data)
            (hash_password (SignupRequest.password signup_data))
            (SignupRequest.full_name signup_data)
            (SignupRequest.phone signup_data) role true in
  _ ← update (set_users (λ rows, rows ++ [new_user]));
  mret (UserResponse_of new_user).

Definition bad_credentials : exn :=
  HTTPException HTTP_401_UNAUTHORIZED "Email or password is incorrect".

Definition account_disabled : exn :=
  HTTPException HTTP_403_FORBIDDEN "Your account is disabled".

(** POST /auth/login *)
Definition login (login_data : LoginRequest.t) (db : DB) : result TokenResponse.t :=
  let user :=
    query_first (λ u, User.email u = LoginRequest.email login_data) (users db) in
  user ← or_raise bad_credentials user;
  _ ← (if verify_password (LoginRequest.password login_data)
                          (User.password_hash user)
       then Ok () else Raise bad_credentials);
  _ ← (if User.is_active user then Ok () else Raise account_disabled);
  let token := create_token (str_of_UUID (User.id user)) in
  mret (TokenResponse.mk token "bearer").

(** POST /auth/refresh *)
Definition refresh_token (current_user : User.t) : TokenResponse.t :=
  let new_token := create_token (str_of_UUID (User.id current_user)) in
  TokenResponse.mk new_token "bearer".

(** POST /auth/reset-password; the answer is the ["message"] of the
    dictionary the handler returns. *)
Definition reset_password (email : string) (db : DB) : string :=
  let user := query_first (λ u, User.email u = email) (users db) in
  "If this email exists, you will receive password reset instructions".

(** GET /auth/me *)
Definition get_me (current_user : User.t) : UserResponse.t :=
  UserResponse_of current_user.

End Routers.

(** ** A concrete library, to run the handlers on examples *)

Module Example.

Fixpoint map_string (f : ascii → ascii) (s : string) : string :=
  match s with
  | EmptyString => EmptyString
  | String c s' => String (f c) (map_string f s')
  end.

(** ASCII letters to upper case, every other character kept. *)
Definition upper_ascii (c : ascii) : ascii :=
  let n := Ascii.N_of_ascii c in
  if decide (97 ≤ n ∧ n ≤ 122)%N then Ascii.ascii_of_N (n - 32) else c.

Definition hex_digit (n : N) : ascii :=
  if decide (n < 10)%N then Ascii.ascii_of_N (48 + n)
  else Ascii.ascii_of_N (87 + n).

(** The [k] lowest hexadecimal digits of [n], most significant first. *)
Fixpoint hex (k : nat) (n : N) : string :=
  match k with
  | O => EmptyString
  | S k' => hex k' (n / 16) +:+ String (hex_digit (n mod 16)) EmptyString
  end.

(** [str(u)]: the 8-4-4-4-12 form of the 128 bits. *)
Definition uuid_str (u : N) : string :=
  hex 8 (u / 2 ^ 96) +:+ "-" +:+ hex 4 (u / 2 ^ 80) +:+ "-" +:+
  hex 4 (u / 2 ^ 64) +:+ "-" +:+ hex 4 (u / 2 ^ 48) +:+ "-" +:+ hex 12 u.

Definition digit_of_hex (c : ascii) : option N :=
  let n := Ascii.N_of_ascii c in
  if decide (48 ≤ n ∧ n ≤ 57)%N then Some (n - 48)%N
  else if decide (97 ≤ n ∧ n ≤ 102)%N then Some (n - 87)%N
  else if decide (65 ≤ n ∧ n ≤ 70)%N then Some (n - 55)%N
  else None.

Fixpoint parse_hex (acc : N) (count : nat) (s : string) : option (N * nat) :=
  match s with
  | EmptyString => Some (acc, count)
  | String c s' =>
      if decide (c = "-"%char) then parse_hex acc count s'
      else match digit_of_hex c with
           | Some d => parse_hex (16 * acc + d)%N (S count) s'
           | None => None
           end
  end.

(** Hyphens dropped, then exactly 32 hexadecimal digits. *)
Definition uuid_parse (s : string) : option N :=
  match parse_hex 0%N O s with
  | Some (n, 32%nat) => Some n
  | _ => None
  end.

#[export] Instance lib : Lib := {|
  str_of_UUID := uuid_str;
  UUID_of_str := uuid_parse;
  str_upper := map_string upper_ascii;
  hash_password := λ plain, "hashed:" +:+ plain;
  verify_password := λ plain hashed, bool_decide (hashed = "hashed:" +:+ plain);
  create_token := λ subject, "token:" +:+ subject
|}.

(** Two tenants; a student of tenant 1. *)
Definition alice : User.t :=
  User.mk 10 1 "alice@aiims.example" "hashed:wonderland" "Alice" None STUDENT true.

Definition anatomy : Course.t :=
  Course.mk 20 1 None "Human Anatomy" (Some "ANAT101") None (Some "Dr. Rao") true.

Definition chapter1 : Module.t := Module.mk 30 1 20 "Upper limb" 1.

Definition lesson1 : ContentItem.t :=
  ContentItem.mk 40 1 30 "Brachial plexus" TEXT None (Some "...") None 1.

(** Alice enrolled in anatomy, with its one module and one lesson. *)
Definition campus : DB :=
  mkDB [Tenant.mk 1 "AIIMS" (Some "aiims.example") true;
        Tenant.mk 2 "Apollo" (Some "apollo.example") true]
       [alice] [anatomy] [CourseEnrollment.mk 50 20 10 1]
       [chapter1] [lesson1] [].

(** A course of tenant 2, and an enrollment row of tenant 1 that points
    at it for Alice. *)
Definition pharmacology : Course.t :=
  Course.mk 21 2 None "Pharmacology" (Some "PHAR201") (Some "syllabus")
            (Some "Dr. Iyer") true.

Definition crossed : DB :=
  mkDB (tenants campus) [alice] [anatomy; pharmacology]
       [CourseEnrollment.mk 51 21 10 1] [chapter1] [lesson1] [].

Definition new_student : SignupRequest.t :=
  SignupRequest.mk "bob@aiims.example" "secret" "Bob" None "student".

(** A second, larger campus.  Bob is a student of tenant 1 without any
    enrollment; Carol's account is disabled.  Alice is also enrolled in
    histology, a course that was retired.  The upper-limb module has three
    lessons of tenant 1, stored out of order, and one lesson that belongs to
    tenant 2; Alice has completed none of them, though a progress row of hers
    exists for the second. *)
Definition bob : User.t :=
  User.mk 11 1 "bob@aiims.example" "hashed:builder" "Bob" None STUDENT true.

Definition carol : User.t :=
  User.mk 12 1 "carol@aiims.example" "hashed:singer" "Carol" None FACULTY false.

Definition histology : Course.t :=
  Course.mk 22 1 None "Histology" (Some "HIST101") None None false.

Definition school : DB :=
  mkDB (tenants campus) [alice; bob; carol] [anatomy; histology]
       [CourseEnrollment.mk 50 20 10 1; CourseEnrollment.mk 52 22 10 1]
       [Module.mk 32 1 20 "Lower limb" 2; chapter1; Module.mk 33 2 20 "Thorax" 0;
        Module.mk 34 1 22 "Epithelium" 1]
       [ContentItem.mk 43 1 30 "Axilla" VIDEO (Some "s3://axilla") None (Some 12) 3;
        lesson1;
        ContentItem.mk 44 2 30 "Foreign" PDF (Some "s3://foreign") None None 0;
        ContentItem.mk 45 1 30 "Scapula" PDF (Some "s3://scapula") None None 2]
       [LessonProgress.mk 70 10 45 false None].

End Example.

(** ** Vocabulary of the statements *)

(** The student has an enrollment row for the course in their tenant. *)
Definition enrolled (course_id : UUID) (u : User.t) (db : DB) : Prop :=
  Exists (enrollment_for course_id u) (course_enrollments db).

(** The condition of the course lookups: this id, and active. *)
Definition visible_course (course_id : UUID) (c : Course.t) : Prop :=
  Course.id c = course_id ∧ Course.is_active c = true.

Definition course_visible (course_id : UUID) (db : DB) : Prop :=
  Exists (visible_course course_id) (courses db).

(** The identifiers of a table are pairwise distinct, as its primary key
    constraint has it. *)
Definition primary_key {A} (id : A → UUID) (table : list A) : Prop :=
  NoDup (id <$> table).

(** Every enrollment row carries the tenant of the course it points at. *)
Definition enrollments_in_course_tenant (db : DB) : Prop :=
  ∀ e c, e ∈ course_enrollments db → c ∈ courses db →
         Course.id c = CourseEnrollment.course_id e →
         Course.tenant_id c = CourseEnrollment.tenant_id e.

(** The course owning a lesson, the way both lesson endpoints derive it:
    the lesson by id in the requester's tenant, then its module by id. *)
Definition owning_course (lesson_id : UUID) (u : User.t) (db : DB) : option UUID :=
  lesson ← query_first (lesson_in_tenant lesson_id u) (content_items db);
  module ← query_first (λ m, Module.id m = ContentItem.module_id lesson) (modules db);
  Some (Module.course_id module).

(** An enrolled student and an existing in-tenant lesson. *)
Definition may_complete (lesson_id : UUID) (u : User.t) (db : DB) : Prop :=
  ∃ course_id, owning_course lesson_id u db = Some course_id ∧
               enrolled course_id u db.

(** The progress rows of a (student, content item) pair. *)
Definition progress_rows (student_id content_item_id : UUID) (db : DB)
    : list LessonProgress.t :=
  filter (λ p, LessonProgress.student_id p = student_id ∧
               LessonProgress.content_item_id p = content_item_id)
         (lesson_progress db).

(** At most one progress row per (student, content item). *)
Definition progress_unique (db : DB) : Prop :=
  ∀ student_id content_item_id,
    (length (progress_rows student_id content_item_id db) ≤ 1)%nat.

(** A completion request: lesson, requester, and what [uuid.uuid4()] and
    [datetime.utcnow()] give during the call. *)
Record Completion := mkCompletion {
  completion_lesson : UUID;
  completion_user : User.t;
  completion_uuid4 : UUID;
  completion_utcnow : datetime
}.

(** The account [login] authenticates against: the first user row with the
    email, whatever its tenant. *)
Definition account_of (email : string) (db : DB) : option User.t :=
  query_first (λ u, User.email u = email) (users db).

Definition email_taken (email : string) (db : DB) : Prop :=
  Exists (λ u, User.email u = email) (users db).

(** The database with the modules of other tenants removed. *)
Definition own_modules (tenant_id : UUID) (db : DB) : DB :=
  mkDB (tenants db) (users db) (courses db) (course_enrollments db)
       (filter (λ m, Module.tenant_id m = tenant_id) (modules db))
       (content_items db) (lesson_progress db).

(** The database with the lessons of other tenants removed. *)
Definition own_lessons (tenant_id : UUID) (db : DB) : DB :=
  mkDB (tenants db) (users db) (courses db) (course_enrollments db)
       (modules db)
       (filter (λ l, ContentItem.tenant_id l = tenant_id) (content_items db))
       (lesson_progress db).

(** A lesson row as the listing shows it, with the completion flag given. *)
Definition LessonBasic_with (flag : bool) (b : LessonBasic.t) : LessonBasic.t :=
  LessonBasic.mk (LessonBasic.id b) (LessonBasic.title b)
                 (LessonBasic.content_type b) (LessonBasic.duration_minutes b)
                 (LessonBasic.sequence_order b) flag.

Definition LessonDetail_with (flag : bool) (d : LessonDetail.t) : LessonDetail.t :=
  LessonDetail.mk (LessonDetail.id d) (LessonDetail.title d)
                  (LessonDetail.content_type d) (LessonDetail.file_url d)
                  (LessonDetail.text_content d) (LessonDetail.duration_minutes d)
                  (LessonDetail.sequence_order d) flag.

(** * Properties *)

(** ** Queries, loops and ordering *)

Section QueryFacts.
Context {A : Type} (P : A → Prop) `{!∀ x, Decision (P x)}.

Lemma query_first_Some (table : list A) (x : A) :
  query_first P table = Some x → x ∈ table ∧ P x.
Proof.
  unfold query_first. intros Hhd.
  apply head_Some_elem_of in Hhd. by apply list_elem_of_filter in Hhd as [? ?].
Qed.

Lemma query_first_None (table : list A) :
  query_first P table = None ↔ ∀ x, x ∈ table → ¬ P x.
Proof.
  unfold query_first. induction table as [|y table IH]; simpl.
  - split; [intros _ x Hx; by apply elem_of_nil in Hx | done].
  - rewrite filter_cons. destruct (decide (P y)) as [Hy|Hy]; simpl.
    + split; [done | intros Hall; destruct (Hall y); [left | done]].
    + rewrite IH. split.
      * intros Hall x Hx. apply elem_of_cons in Hx as [-> | Hx]; auto.
      * intros Hall x Hx. apply Hall. by right.
Qed.

Lemma query_first_is_Some (table : list A) :
  is_Some (query_first P table) ↔ ∃ x, x ∈ table ∧ P x.
Proof.
  split.
  - intros [x Hx]. exists x. by apply query_first_Some.
  - intros (x & Hx & HP). destruct (query_first P table) eqn:Hq; [eauto |].
    rewrite query_first_None in Hq. by destruct (Hq x).
Qed.

(** The row with its place and the row alone are the same first row. *)
Lemma query_first_at_fst (table : list A) :
  query_first P table = snd <$> query_first_at P table.
Proof.
  unfold query_first, query_first_at. induction table as [|y table IH]; [done |].
  simpl. rewrite filter_cons. destruct (decide (P y)); [done |].
  rewrite IH. by destruct (list_find P table) as [[? ?]|].
Qed.

Lemma query_first_at_Some (table : list A) (i : nat) (x : A) :
  query_first_at P table = Some (i, x) →
  table !! i = Some x ∧ P x ∧ ∀ j y, table !! j = Some y → (j < i)%nat → ¬ P y.
Proof. unfold query_first_at. apply list_find_Some. Qed.

Lemma query_first_at_None (table : list A) :
  query_first_at P table = None ↔ ∀ x, x ∈ table → ¬ P x.
Proof.
  unfold query_first_at. by rewrite list_find_None, Forall_forall.
Qed.

Lemma query_all_elem_of (table : list A) (x : A) :
  x ∈ query_all P table ↔ P x ∧ x ∈ table.
Proof. unfold query_all. apply list_elem_of_filter. Qed.
End QueryFacts.

(** A loop whose body only appends is the concatenation of what each round
    appends. *)
Lemma for_loop_append {A B} (body : A → list B → list B) (g : A → list B)
    (xs : list A) :
  (∀ x acc, body x acc = acc ++ g x) →
  for_loop body xs = xs ≫= g.
Proof.
  intros Hbody. unfold for_loop.
  assert (Hgen : ∀ acc, foldl (λ acc x, body x acc) acc xs = acc ++ (xs ≫= g)).
  { induction xs as [|x xs IH]; intros acc; simpl.
    - by rewrite app_nil_r.
    - rewrite IH, Hbody. by rewrite <- app_assoc. }
  apply (Hgen []).
Qed.

Lemma insert_by_elem_of {A} (key : A → Z) (x y : A) (l : list A) :
  y ∈ insert_by key x l ↔ y = x ∨ y ∈ l.
Proof.
  induction l as [|z l IH]; simpl.
  - rewrite list_elem_of_singleton, elem_of_nil. tauto.
  - destruct (decide (key x ≤ key z)).
    + by rewrite elem_of_cons.
    + rewrite !elem_of_cons, IH. tauto.
Qed.

(** Ordering neither adds nor drops a row. *)
Lemma order_by_elem_of {A} (key : A → Z) (y : A) (l : list A) :
  y ∈ order_by key l ↔ y ∈ l.
Proof.
  unfold order_by. induction l as [|x l IH]; simpl; [done |].
  by rewrite insert_by_elem_of, IH, elem_of_cons.
Qed.

Lemma primary_key_inj {A} (id : A → UUID) (table : list A) (x y : A) :
  primary_key id table → x ∈ table → y ∈ table → id x = id y → x = y.
Proof.
  unfold primary_key. induction table as [|z table IH]; simpl.
  - intros _ Hx. by apply elem_of_nil in Hx.
  - rewrite NoDup_cons, !elem_of_cons. intros [Hz Hnd] [-> | Hx] [-> | Hy] Hid.
    + done.
    + destruct Hz. rewrite Hid. apply list_elem_of_fmap. eauto.
    + destruct Hz. rewrite <- Hid. apply list_elem_of_fmap. eauto.
    + by apply IH.
Qed.

Lemma or_raise_Ok {A} (e : exn) (o : option A) (a : A) :
  or_raise e o = Ok a ↔ o = Some a.
Proof. destruct o; simpl; split; congruence. Qed.

(** ** Courses *)

Section CourseFacts.
Context {lib : Lib}.

Lemma enrolled_query_first course_id u db :
  enrolled course_id u db ↔
  is_Some (query_first (enrollment_for course_id u) (course_enrollments db)).
Proof. unfold enrolled. by rewrite query_first_is_Some, Exists_exists. Qed.

Lemma not_enrolled_query_first course_id u db :
  ¬ enrolled course_id u db ↔
  query_first (enrollment_for course_id u) (course_enrollments db) = None.
Proof. rewrite enrolled_query_first, eq_None_not_Some. done. Qed.

(** The listing, round by round: each enrollment of the student contributes
    its active course, or nothing. *)
Lemma get_my_courses_rounds u db :
  get_my_courses u db =
  query_all (λ e, CourseEnrollment.student_id e = User.id u ∧
                  CourseEnrollment.tenant_id e = User.tenant_id u)
            (course_enrollments db)
  ≫= λ e, option_list
            (CourseBasic_of <$>
               query_first (visible_course (CourseEnrollment.course_id e))
                           (courses db)).
Proof.
  unfold get_my_courses. apply for_loop_append. intros e acc.
  unfold visible_course.
  destruct (query_first _ (courses db)); simpl; [done | by rewrite app_nil_r].
Qed.

Lemma get_my_courses_sound u db b :
  b ∈ get_my_courses u db →
  ∃ c e, c ∈ courses db ∧ Course.is_active c = true ∧
         e ∈ course_enrollments db ∧
         CourseEnrollment.student_id e = User.id u ∧
         CourseEnrollment.tenant_id e = User.tenant_id u ∧
         CourseEnrollment.course_id e = Course.id c ∧
         b = CourseBasic_of c.
Proof.
  rewrite get_my_courses_rounds, list_elem_of_bind.
  intros (e & Hb & He). apply query_all_elem_of in He as [[Hs Ht] He].
  destruct (query_first _ (courses db)) as [c|] eqn:Hc; simpl in Hb.
  - apply list_elem_of_singleton in Hb as ->.
    apply query_first_Some in Hc as [Hc [Hid Hact]].
    exists c, e. by repeat split.
  - by apply elem_of_nil in Hb.
Qed.

(** C7: the listing holds exactly the active courses the student has an
    enrollment row for in their tenant; an enrollment whose course is
    inactive or gone contributes nothing, and the call cannot fail. *)
Theorem get_my_courses_exactly u db :
  primary_key Course.id (courses db) →
  ∀ b, b ∈ get_my_courses u db ↔
       ∃ c e, c ∈ courses db ∧ Course.is_active c = true ∧
              e ∈ course_enrollments db ∧
              CourseEnrollment.student_id e = User.id u ∧
              CourseEnrollment.tenant_id e = User.tenant_id u ∧
              CourseEnrollment.course_id e = Course.id c ∧
              b = CourseBasic_of c.
Proof.
  intros Hpk b. split; [apply get_my_courses_sound |].
  intros (c & e & Hc & Hact & He & Hs & Ht & Hid & ->).
  rewrite get_my_courses_rounds, list_elem_of_bind. exists e. split.
  - destruct (query_first _ (courses db)) as [c'|] eqn:Hc'; simpl.
    + apply query_first_Some in Hc' as [Hc' [Hid' _]].
      assert (c' = c) as ->; [| by apply list_elem_of_singleton].
      apply (primary_key_inj Course.id (courses db)); [done.. | congruence].
    + rewrite query_first_None in Hc'. by destruct (Hc' c).
  - apply query_all_elem_of. done.
Qed.

(** C5: the enrollment check comes first, so a student without an
    enrollment row gets 403 whatever the course id; for an enrolled student
    the course must exist and be active, or the answer is 404. *)
Theorem get_course_detail_enrollment_first course_id u db :
  (¬ enrolled course_id u db →
   get_course_detail course_id u db =
   Raise (HTTPException 403 "You are not enrolled in this course")) ∧
  (enrolled course_id u db → ¬ course_visible course_id db →
   get_course_detail course_id u db =
   Raise (HTTPException 404 "Course not found")) ∧
  (enrolled course_id u db → course_visible course_id db →
   ∃ c, c ∈ courses db ∧ Course.id c = course_id ∧ Course.is_active c = true ∧
        get_course_detail course_id u db = Ok (CourseDetail_of c)).
Proof.
  unfold get_course_detail, course_visible. split; [| split].
  - intros Hne. apply not_enrolled_query_first in Hne. by rewrite Hne.
  - intros [e He]%enrolled_query_first Hnv. rewrite He. simpl.
    rewrite Exists_exists in Hnv.
    destruct (query_first _ (courses db)) as [c|] eqn:Hc; [| done].
    apply query_first_Some in Hc. destruct Hnv. eauto.
  - intros [e He]%enrolled_query_first Hv. rewrite He. simpl.
    rewrite Exists_exists, <- query_first_is_Some in Hv. destruct Hv as [c Hc].
    unfold visible_course in Hc. rewrite Hc. simpl.
    apply query_first_Some in Hc as [Hin [Hid Hact]]. eauto.
Qed.

End CourseFacts.

(** ** Lists updated in place *)

Lemma filter_nil_None {A} (P : A → Prop) `{!∀ x, Decision (P x)} (l : list A) :
  (∀ x, x ∈ l → ¬ P x) → filter P l = [].
Proof.
  induction l as [|y l IH]; intros Hall; [done |].
  rewrite filter_cons. destruct (decide (P y)) as [Hy|Hy].
  - destruct (Hall y); [left | done].
  - apply IH. intros x Hx. apply Hall. by right.
Qed.

(** Rewriting a row by one that a filter treats alike keeps the number of
    rows the filter selects. *)
Lemma length_filter_insert {A} (Q : A → Prop) `{!∀ x, Decision (Q x)}
    (l : list A) (i : nat) (p p' : A) :
  l !! i = Some p → (Q p ↔ Q p') →
  length (filter Q (<[i := p']> l)) = length (filter Q l).
Proof.
  revert i. induction l as [|y l IH]; intros [|i] Hi Hiff; simplify_eq/=.
  - rewrite !filter_cons.
    destruct (decide (Q p)), (decide (Q p')); simpl; tauto.
  - rewrite !filter_cons. destruct (decide (Q y)); simpl; by rewrite (IH i).
Qed.

Lemma lookup_snoc_ne {A} (l : list A) (x : A) (j : nat) :
  j ≠ length l → (l ++ [x]) !! j = l !! j.
Proof.
  intros Hj. destruct (decide (j < length l)%nat).
  - by apply lookup_app_l.
  - rewrite !lookup_ge_None_2; [done | lia |].
    rewrite length_app. simpl. lia.
Qed.

(** The upsert on the rows of a table: the first row the filter selects is
    rewritten where it is, or a row is appended when there is none.  Either
    way one place of the table holds the row afterwards, the filter finds it
    there first, and every other place is as before. *)
Lemma upsert_first {A} (P : A → Prop) `{!∀ x, Decision (P x)}
    (rows : list A) (new : A) (f : A → A) :
  P new → (∀ p, P p → P (f p)) →
  ∃ i row,
    list_find P
      (match list_find P rows with
       | Some (i, p) => <[i := f p]> rows
       | None => rows ++ [new]
       end) = Some (i, row) ∧
    ((list_find P rows = None ∧ i = length rows ∧ row = new) ∨
     (∃ p, list_find P rows = Some (i, p) ∧ row = f p)).
Proof.
  intros Hnew Hf. destruct (list_find P rows) as [[i p]|] eqn:Hfind.
  - exists i, (f p). split; [| right; eauto].
    apply list_find_Some in Hfind as (Hi & Hp & Hbefore).
    apply list_find_Some. split; [| split].
    + apply list_lookup_insert_eq. by eapply lookup_lt_Some.
    + by apply Hf.
    + intros j y Hj Hlt. rewrite list_lookup_insert_ne in Hj by lia. eauto.
  - exists (length rows), new. split; [| left; eauto].
    apply list_find_None in Hfind. rewrite Forall_forall in Hfind.
    apply list_find_Some. split; [| split].
    + by rewrite lookup_app_r, Nat.sub_diag.
    + done.
    + intros j y Hj Hlt. rewrite lookup_app_l in Hj by done.
      apply Hfind. by eapply list_elem_of_lookup_2.
Qed.

Section ContentFacts.
Context {lib : Lib}.

Lemma may_complete_inv lesson_id u db :
  may_complete lesson_id u db ↔
  ∃ lesson module e,
    query_first (lesson_in_tenant lesson_id u) (content_items db) = Some lesson ∧
    query_first (λ m, Module.id m = ContentItem.module_id lesson) (modules db)
      = Some module ∧
    query_first (enrollment_for (Module.course_id module) u) (course_enrollments db)
      = Some e.
Proof.
  unfold may_complete, owning_course. split.
  - intros (c & Hc & He).
    destruct (query_first _ (content_items db)) as [lesson|]; [| done].
    simpl in Hc.
    destruct (query_first _ (modules db)) as [module|] eqn:Hm; [| done].
    simplify_eq/=. apply enrolled_query_first in He as [e He].
    by exists lesson, module, e.
  - intros (lesson & module & e & -> & Hm & He). simpl. rewrite Hm. simpl.
    eexists. split; [done |]. apply enrolled_query_first. eauto.
Qed.

Lemma mark_lesson_complete_run lesson_id u uuid4 utcnow db :
  may_complete lesson_id u db →
  ∃ lesson,
    query_first (lesson_in_tenant lesson_id u) (content_items db) = Some lesson ∧
    mark_lesson_complete lesson_id u uuid4 utcnow db =
    (Ok (CompleteResponse.mk "Lesson marked as complete"
           (str_of_UUID (ContentItem.id lesson)) utcnow),
     set_lesson_progress (λ rows,
       match query_first_at (progress_for u lesson) (lesson_progress db) with
       | Some (i, p) => <[i := completed p utcnow]> rows
       | None => rows ++ [new_progress uuid4 u lesson utcnow]
       end) db).
Proof.
  intros (lesson & module & e & Hl & Hm & He)%may_complete_inv.
  exists lesson. split; [done |].
  unfold mark_lesson_complete, mbind, Handler_bind, query, lift. simpl.
  rewrite Hl. simpl. rewrite Hm. simpl. rewrite He. simpl.
  by destruct (query_first_at _ (lesson_progress db)) as [[i p]|].
Qed.

(** A failed completion leaves the database as it was. *)
Lemma mark_lesson_complete_Raise lesson_id u uuid4 utcnow db e db' :
  mark_lesson_complete lesson_id u uuid4 utcnow db = (Raise e, db') → db' = db.
Proof.
  unfold mark_lesson_complete, mbind, Handler_bind, query, lift. simpl.
  destruct (query_first _ (content_items db)) as [lesson|]; simpl;
    [| congruence].
  destruct (query_first _ (modules db)) as [module|]; simpl; [| congruence].
  destruct (query_first _ (course_enrollments db)) as [en|]; simpl;
    [| congruence].
  by destruct (query_first_at _ (lesson_progress db)) as [[i p]|].
Qed.

(** A completion succeeds exactly for an enrolled student and an existing
    in-tenant lesson. *)
Lemma mark_lesson_complete_Ok lesson_id u uuid4 utcnow db r db' :
  mark_lesson_complete lesson_id u uuid4 utcnow db = (Ok r, db') →
  may_complete lesson_id u db.
Proof.
  rewrite may_complete_inv.
  unfold mark_lesson_complete, mbind, Handler_bind, query, lift. simpl.
  destruct (query_first _ (content_items db)) as [lesson|]; simpl;
    [| congruence].
  destruct (query_first _ (modules db)) as [module|] eqn:Hm; simpl;
    [| congruence].
  destruct (query_first _ (course_enrollments db)) as [en|] eqn:He; simpl;
    [| congruence].
  intros _. by exists lesson, module, en.
Qed.

Lemma may_complete_set_lesson_progress lesson_id u f db :
  may_complete lesson_id u (set_lesson_progress f db) ↔
  may_complete lesson_id u db.
Proof. done. Qed.

Lemma progress_rows_for u lesson db :
  progress_rows (User.id u) (ContentItem.id lesson) db =
  filter (progress_for u lesson) (lesson_progress db).
Proof. done. Qed.

(** What a successful completion leaves in the progress table: the row of
    the pair at one place [i], found first by the pair's filter, completed
    and stamped with the call's time; it is the appended row when the pair
    had none, and the rewritten first row of the pair otherwise. *)
Lemma mark_lesson_complete_effect lesson_id u uuid4 utcnow db :
  may_complete lesson_id u db →
  ∃ lesson r db' i row,
    query_first (lesson_in_tenant lesson_id u) (content_items db) = Some lesson ∧
    ContentItem.id lesson = lesson_id ∧
    mark_lesson_complete lesson_id u uuid4 utcnow db = (Ok r, db') ∧
    CompleteResponse.completed_at r = utcnow ∧
    db' = set_lesson_progress (λ _, lesson_progress db') db ∧
    query_first_at (progress_for u lesson) (lesson_progress db') = Some (i, row) ∧
    ((query_first_at (progress_for u lesson) (lesson_progress db) = None ∧
      i = length (lesson_progress db) ∧
      row = new_progress uuid4 u lesson utcnow ∧
      lesson_progress db' = lesson_progress db ++ [row]) ∨
     (∃ p, query_first_at (progress_for u lesson) (lesson_progress db) = Some (i, p) ∧
           row = completed p utcnow ∧
           lesson_progress db' = <[i := row]> (lesson_progress db))).
Proof.
  intros Hmay.
  destruct (mark_lesson_complete_run lesson_id u uuid4 utcnow db Hmay)
    as (lesson & Hl & Hrun).
  destruct (upsert_first (progress_for u lesson) (lesson_progress db)
              (new_progress uuid4 u lesson utcnow) (λ p, completed p utcnow))
    as (i & row & Hfind & Hcase); [done | by intros p [? ?] |].
  eexists lesson, _, _, i, row. split; [done |].
  split; [by apply query_first_Some in Hl as [_ [? _]] |].
  split; [exact Hrun |]. split; [done |]. split; [done |].
  unfold query_first_at in *. simpl. split; [exact Hfind |].
  destruct Hcase as [(Hnone & -> & ->) | (p & Hsome & ->)].
  - left. by rewrite Hnone.
  - right. exists p. by rewrite Hsome.
Qed.



Lemma progress_rows_completed s c (p : LessonProgress.t) t :
  (LessonProgress.student_id p = s ∧ LessonProgress.content_item_id p = c) ↔
  (LessonProgress.student_id (completed p t) = s ∧
   LessonProgress.content_item_id (completed p t) = c).
Proof. done. Qed.

(** One completion keeps the pairs of the progress table single. *)
Lemma mark_lesson_complete_unique_step lesson_id u uuid4 utcnow db :
  progress_unique db →
  progress_unique (mark_lesson_complete lesson_id u uuid4 utcnow db).2.
Proof.
  intros Huniq.
  destruct (mark_lesson_complete lesson_id u uuid4 utcnow db) as [[r|e] db']
    eqn:Hrun; simpl.
  2: { by rewrite (mark_lesson_complete_Raise _ _ _ _ _ _ _ Hrun). }
  pose proof (mark_lesson_complete_Ok _ _ _ _ _ _ _ Hrun) as Hmay.
  destruct (mark_lesson_complete_effect lesson_id u uuid4 utcnow db Hmay)
    as (lesson & r' & db'' & i & row & _ & _ & Hrun' & _ & _ & _ & Hcase).
  rewrite Hrun in Hrun'. simplify_eq. intros s c. unfold progress_rows.
  destruct Hcase as [(Hnone & _ & -> & ->) | (p & Hsome & -> & ->)].
  - rewrite query_first_at_None in Hnone.
    rewrite filter_app, length_app, filter_cons, filter_nil.
    destruct (decide _) as [[Hs Hc]|_]; simpl.
    + simpl in Hs, Hc. subst s c.
      by rewrite (filter_nil_None (progress_for u lesson)).
    + rewrite Nat.add_0_r. apply Huniq.
  - apply query_first_at_Some in Hsome as (Hi & _ & _).
    rewrite (length_filter_insert _ _ _ p); [apply Huniq | done |].
    apply progress_rows_completed.
Qed.

(** X20: completions served one after the other, from any state whose pairs are
    single (an empty progress table is one), never leave two rows for a pair. *)
Lemma completions_unique (requests : list Completion) (db : DB) :
  progress_unique db →
  progress_unique
    (foldl (λ db c,
       (mark_lesson_complete (completion_lesson c) (completion_user c)
          (completion_uuid4 c) (completion_utcnow c) db).2) db requests).
Proof.
  revert db. induction requests as [|c requests IH]; intros db Huniq; [done |].
  simpl. apply IH. by apply mark_lesson_complete_unique_step.
Qed.

Lemma length_le_1_head {A} (l : list A) (x : A) :
  (length l ≤ 1)%nat → head l = Some x → l = [x].
Proof. destruct l as [|y [|z l]]; intros Hlen Hhd; simplify_eq/=; [done | lia]. Qed.

(** The upsert where the pairs of the progress table are single.  For an
    enrolled student and an existing in-tenant lesson the completion
    succeeds; afterwards the pairs are still single and the pair of the call
    has exactly one row, completed and stamped with the call's time.  That
    row is a new one, appended, when the pair had none; otherwise it is the
    pair's row, rewritten where it was. *)
Lemma mark_lesson_complete_single lesson_id u uuid4 utcnow db :
  progress_unique db → may_complete lesson_id u db →
  ∃ r db' row,
    mark_lesson_complete lesson_id u uuid4 utcnow db = (Ok r, db') ∧
    CompleteResponse.completed_at r = utcnow ∧
    progress_unique db' ∧ may_complete lesson_id u db' ∧
    progress_rows (User.id u) lesson_id db' = [row] ∧
    LessonProgress.is_completed row = true ∧
    LessonProgress.completed_at row = Some utcnow ∧
    ((progress_rows (User.id u) lesson_id db = [] ∧
      row = LessonProgress.mk uuid4 (User.id u) lesson_id true (Some utcnow) ∧
      lesson_progress db' = lesson_progress db ++ [row]) ∨
     (∃ i p, progress_rows (User.id u) lesson_id db = [p] ∧
             lesson_progress db !! i = Some p ∧
             row = completed p utcnow ∧
             lesson_progress db' = <[i := row]> (lesson_progress db))).
Proof.
  intros Huniq Hmay.
  pose proof (mark_lesson_complete_unique_step lesson_id u uuid4 utcnow db Huniq)
    as Huniq'.
  destruct (mark_lesson_complete_effect lesson_id u uuid4 utcnow db Hmay)
    as (lesson & r & db' & i & row & _ & Hid & Hrun & Hr & Hdb' & Hfind & Hcase).
  rewrite Hrun in Huniq'. simpl in Huniq'.
  exists r, db', row. split; [done |]. split; [done |]. split; [done |].
  split; [by rewrite Hdb' |].
  subst lesson_id. rewrite !progress_rows_for.
  assert (Hhead : ∀ rows j p,
            query_first_at (progress_for u lesson) rows = Some (j, p) →
            head (filter (progress_for u lesson) rows) = Some p).
  { intros rows j p Hp.
    change (query_first (progress_for u lesson) rows = Some p).
    by rewrite query_first_at_fst, Hp. }
  split.
  { apply length_le_1_head; [| by eapply Hhead].
    rewrite <- progress_rows_for. apply Huniq'. }
  split; [by destruct Hcase as [(_ & _ & -> & _) | (p & _ & -> & _)] |].
  split; [by destruct Hcase as [(_ & _ & -> & _) | (p & _ & -> & _)] |].
  destruct Hcase as [(Hnone & _ & -> & Hrows) | (p & Hsome & -> & Hrows)].
  - left. rewrite query_first_at_None in Hnone.
    by rewrite (filter_nil_None (progress_for u lesson)).
  - right. exists i, p. split; [| split; [| done]].
    + apply length_le_1_head; [| by eapply Hhead].
      rewrite <- progress_rows_for. apply Huniq.
    + by apply query_first_at_Some in Hsome as (Hi & _ & _).
Qed.

(** C4: where the pairs of the progress table are single, completing a
    lesson leaves the pair's one progress row completed and stamped with the
    call's time; completing it again keeps that same row, completed, and
    overwrites the stamp with the second call's time. *)
Theorem mark_lesson_complete_twice lesson_id u id1 t1 id2 t2 db :
  progress_unique db →
  may_complete lesson_id u db →
  ∃ r1 db1 p1 r2 db2 p2,
    mark_lesson_complete lesson_id u id1 t1 db = (Ok r1, db1) ∧
    progress_rows (User.id u) lesson_id db1 = [p1] ∧
    LessonProgress.is_completed p1 = true ∧
    LessonProgress.completed_at p1 = Some t1 ∧
    mark_lesson_complete lesson_id u id2 t2 db1 = (Ok r2, db2) ∧
    progress_rows (User.id u) lesson_id db2 = [p2] ∧
    LessonProgress.is_completed p2 = true ∧
    LessonProgress.completed_at p2 = Some t2 ∧
    LessonProgress.id p2 = LessonProgress.id p1 ∧
    CompleteResponse.completed_at r2 = t2 ∧
    length (lesson_progress db2) = length (lesson_progress db1).
Proof.
  intros Huniq Hmay.
  destruct (mark_lesson_complete_single lesson_id u id1 t1 db Huniq Hmay)
    as (r1 & db1 & p1 & Hrun1 & _ & Huniq1 & Hmay1 & Hrows1 & Hdone1 & Hat1 & _).
  destruct (mark_lesson_complete_single lesson_id u id2 t2 db1 Huniq1 Hmay1)
    as (r2 & db2 & p2 & Hrun2 & Hr2 & _ & _ & Hrows2 & Hdone2 & Hat2 & Hcase2).
  exists r1, db1, p1, r2, db2, p2. repeat (split; [done |]).
  destruct Hcase2 as [(Hnone & _) | (i & p & Hp & _ & -> & ->)];
    [congruence |].
  rewrite Hrows1 in Hp. injection Hp as <-.
  split; [done |]. split; [done |]. by rewrite length_insert.
Qed.

(** C6: a completion keeps "at most one progress row per (student, content
    item)", whatever its outcome.  For an enrolled student and an existing
    in-tenant lesson it succeeds and leaves exactly one row for the pair: a
    new row, appended, when the pair had none, and otherwise the pair's row,
    rewritten where it was, the table keeping its length. *)
Theorem mark_lesson_complete_upsert lesson_id u uuid4 utcnow db :
  progress_unique db →
  progress_unique (mark_lesson_complete lesson_id u uuid4 utcnow db).2 ∧
  (may_complete lesson_id u db →
   ∃ r db' row,
     mark_lesson_complete lesson_id u uuid4 utcnow db = (Ok r, db') ∧
     progress_rows (User.id u) lesson_id db' = [row] ∧
     LessonProgress.is_completed row = true ∧
     ((progress_rows (User.id u) lesson_id db = [] ∧
       row = LessonProgress.mk uuid4 (User.id u) lesson_id true (Some utcnow) ∧
       lesson_progress db' = lesson_progress db ++ [row]) ∨
      (∃ i p, progress_rows (User.id u) lesson_id db = [p] ∧
              lesson_progress db !! i = Some p ∧
              row = completed p utcnow ∧
              lesson_progress db' = <[i := row]> (lesson_progress db) ∧
              length (lesson_progress db') = length (lesson_progress db)))).
Proof.
  intros Huniq. split; [by apply mark_lesson_complete_unique_step |].
  intros Hmay.
  destruct (mark_lesson_complete_single lesson_id u uuid4 utcnow db Huniq Hmay)
    as (r & db' & row & Hrun & _ & _ & _ & Hrows & Hdone & _ & Hcase).
  exists r, db', row. repeat (split; [done |]).
  destruct Hcase as [Hnew | (i & p & Hp & Hi & Hrow & Hupd)]; [by left |].
  right. exists i, p. repeat (split; [done |]). by rewrite Hupd, length_insert.
Qed.

(** C10: a successful completion touches one place of the progress table,
    which afterwards holds a row of the (student, lesson) pair and before
    held a row of that pair or nothing; every other place of the progress
    table and every other table are as before. *)
Theorem mark_lesson_complete_frame lesson_id u uuid4 utcnow db :
  may_complete lesson_id u db →
  ∃ r db' i row,
    mark_lesson_complete lesson_id u uuid4 utcnow db = (Ok r, db') ∧
    tenants db' = tenants db ∧ users db' = users db ∧
    courses db' = courses db ∧
    course_enrollments db' = course_enrollments db ∧
    modules db' = modules db ∧ content_items db' = content_items db ∧
    lesson_progress db' !! i = Some row ∧
    LessonProgress.student_id row = User.id u ∧
    LessonProgress.content_item_id row = lesson_id ∧
    (lesson_progress db !! i = None ∨
     ∃ p, lesson_progress db !! i = Some p ∧
          LessonProgress.student_id p = User.id u ∧
          LessonProgress.content_item_id p = lesson_id) ∧
    ∀ j, j ≠ i → lesson_progress db' !! j = lesson_progress db !! j.
Proof.
  intros Hmay.
  destruct (mark_lesson_complete_effect lesson_id u uuid4 utcnow db Hmay)
    as (lesson & r & db' & i & row & _ & Hid & Hrun & _ & Hdb' & Hfind & Hcase).
  exists r, db', i, row. split; [done |].
  rewrite Hdb' at 1 2 3 4 5 6. simpl. do 6 (split; [done |]).
  apply query_first_at_Some in Hfind as (Hi & [Hs Hc] & _).
  split; [done |]. split; [done |]. split; [congruence |].
  destruct Hcase as [(_ & -> & _ & Hrows) | (p & Hsome & _ & Hrows)];
    rewrite Hrows.
  - split; [left; by apply lookup_ge_None_2 |].
    intros j Hj. by apply lookup_snoc_ne.
  - apply query_first_at_Some in Hsome as (Hp & [Hps Hpc] & _).
    split; [right; exists p; split; [done | split; congruence] |].
    intros j Hj. by apply list_lookup_insert_ne.
Qed.

(** C3, as the code has it: the lesson is looked up first, so a lesson id
    that is not in the requester's tenant gives 404 whether or not the user
    is enrolled anywhere; 403 is only answered once the lesson and its
    module were found and the user has no enrollment for the module's
    course. *)
Theorem get_lesson_content_existence_first lesson_id u db :
  (¬ Exists (lesson_in_tenant lesson_id u) (content_items db) →
   get_lesson_content lesson_id u db =
   Raise (HTTPException 404 "Lesson not found")) ∧
  (get_lesson_content lesson_id u db =
   Raise (HTTPException 403 "You are not enrolled in this course") →
   ∃ course_id, owning_course lesson_id u db = Some course_id ∧
                ¬ enrolled course_id u db).
Proof.
  unfold get_lesson_content, owning_course. split.
  - rewrite Exists_exists, <- query_first_is_Some, <- eq_None_not_Some.
    by intros ->.
  - destruct (query_first _ (content_items db)) as [lesson|]; simpl; [| done].
    destruct (query_first _ (modules db)) as [module|]; simpl; [| done].
    destruct (query_first _ (course_enrollments db)) as [e|] eqn:He; simpl;
      [done |].
    intros _. eexists. split; [done |]. by apply not_enrolled_query_first.
Qed.

End ContentFacts.

(** ** Ordered listings *)

Lemma insert_by_sorted {A} (key : A → Z) (x : A) (l : list A) :
  Sorted (λ a b, key a ≤ key b) l →
  Sorted (λ a b, key a ≤ key b) (insert_by key x l).
Proof.
  induction 1 as [|y l Hsorted IH Hhd]; simpl.
  - by repeat constructor.
  - destruct (decide (key x ≤ key y)).
    + by repeat constructor.
    + constructor; [done |].
      destruct Hhd as [|z l Hyz]; simpl.
      * constructor. lia.
      * destruct (decide (key x ≤ key z)); constructor; lia.
Qed.

(** A listing comes out ascending by its key, whatever the table order. *)
Lemma order_by_sorted {A} (key : A → Z) (l : list A) :
  Sorted (λ a b, key a ≤ key b) (order_by key l).
Proof.
  unfold order_by. induction l as [|x l IH]; simpl; [constructor |].
  by apply insert_by_sorted.
Qed.

(** ** Tenant scoping of the reads *)

Section TenantScope.
Context {lib : Lib}.

(** Every module listed is a module of the requester's tenant. *)
Lemma get_course_modules_tenant course_id u db ms :
  get_course_modules course_id u db = Ok ms →
  ∀ r, r ∈ ms →
    ∃ m, m ∈ modules db ∧ Module.tenant_id m = User.tenant_id u ∧
         Module.course_id m = course_id ∧ r = ModuleResponse_of m.
Proof.
  unfold get_course_modules.
  destruct (query_first _ (course_enrollments db)) as [e|]; simpl; [| done].
  intros [= <-] r (m & -> & Hm)%list_elem_of_fmap.
  apply order_by_elem_of, query_all_elem_of in Hm as [[Hc Ht] Hm]. eauto.
Qed.

(** Every lesson listed is a lesson of the requester's tenant, annotated
    with the requester's own progress. *)
Lemma get_module_lessons_tenant module_id u db ls :
  get_module_lessons module_id u db = Ok ls →
  ∀ b, b ∈ ls →
    ∃ l, l ∈ content_items db ∧ ContentItem.tenant_id l = User.tenant_id u ∧
         ContentItem.module_id l = module_id ∧
         b = LessonBasic_of l
               (head (progress_rows (User.id u) (ContentItem.id l) db)).
Proof.
  unfold get_module_lessons.
  destruct (query_first _ (modules db)) as [m|]; simpl; [| done].
  destruct (query_first _ (course_enrollments db)) as [e|]; simpl; [| done].
  intros [= <-] b.
  rewrite (for_loop_append _ (λ lesson,
    [LessonBasic_of lesson
       (query_first (progress_for u lesson) (lesson_progress db))])) by done.
  intros (l & ->%list_elem_of_singleton & Hl)%list_elem_of_bind.
  apply order_by_elem_of, query_all_elem_of in Hl as [[Hm Ht] Hl]. eauto.
Qed.

(** X24: the lesson returned is a lesson of the requester's tenant with the
    requested id, flagged with the requester's own progress. *)
Lemma get_lesson_content_tenant lesson_id u db d :
  get_lesson_content lesson_id u db = Ok d →
  ∃ l, l ∈ content_items db ∧ ContentItem.tenant_id l = User.tenant_id u ∧
       ContentItem.id l = lesson_id ∧
       d = LessonDetail_of l
             (head (progress_rows (User.id u) (ContentItem.id l) db)).
Proof.
  unfold get_lesson_content.
  destruct (query_first _ (content_items db)) as [l|] eqn:Hl; simpl; [| done].
  destruct (query_first _ (modules db)) as [m|]; simpl; [| done].
  destruct (query_first _ (course_enrollments db)) as [e|]; simpl; [| done].
  intros [= <-]. apply query_first_Some in Hl as [Hl [Hid Ht]]. eauto.
Qed.

(** X22: the course lookups filter by id and activity only.  The detail
    endpoint stays inside the requester's tenant as long as every enrollment
    row carries the tenant of its course, which the lookups themselves do
    not check. *)
Lemma get_course_detail_tenant course_id u db d :
  enrollments_in_course_tenant db →
  get_course_detail course_id u db = Ok d →
  ∃ c, c ∈ courses db ∧ Course.tenant_id c = User.tenant_id u ∧
       Course.id c = course_id ∧ d = CourseDetail_of c.
Proof.
  intros Hcons. unfold get_course_detail.
  destruct (query_first _ (course_enrollments db)) as [e|] eqn:He; simpl;
    [| done].
  destruct (query_first _ (courses db)) as [c|] eqn:Hc; simpl; [| done].
  intros [= <-]. apply query_first_Some in He as [He (Hec & _ & Het)].
  apply query_first_Some in Hc as [Hc [Hid _]].
  exists c. repeat split; try done.
  rewrite <- Het. apply Hcons; [done.. | congruence].
Qed.

(** X23: under the same condition on the enrollment rows, every course of
    the listing is a course of the requester's tenant. *)
Lemma get_my_courses_tenant u db b :
  enrollments_in_course_tenant db →
  b ∈ get_my_courses u db →
  ∃ c, c ∈ courses db ∧ Course.tenant_id c = User.tenant_id u ∧
       b = CourseBasic_of c.
Proof.
  intros Hcons (c & e & Hc & _ & He & _ & Ht & Hid & ->)%get_my_courses_sound.
  exists c. repeat split; try done. rewrite <- Ht. by apply Hcons.
Qed.

End TenantScope.

(** ** Authentication *)

Section AuthFacts.
Context {lib : Lib}.

Lemma email_taken_query_first email db :
  email_taken email db ↔
  is_Some (query_first (λ u, User.email u = email) (users db)).
Proof. unfold email_taken. by rewrite query_first_is_Some, Exists_exists. Qed.

(** C9: a signup whose email some user row already has, in whatever tenant,
    is refused with 400 "Email already registered" and writes nothing. *)
Theorem signup_email_taken signup_data uuid4_tenant uuid4_user db :
  email_taken (SignupRequest.email signup_data) db →
  signup signup_data uuid4_tenant uuid4_user db =
  (Raise (HTTPException 400 "Email already registered"), db).
Proof.
  intros [existing Hex]%email_taken_query_first.
  unfold signup, mbind, Handler_bind, query. simpl. by rewrite Hex.
Qed.

(** Past the two checks, [signup] reads [signup_data.tenant_id], which the
    request model does not have. *)
Lemma signup_after_checks signup_data uuid4_tenant uuid4_user db :
  ¬ email_taken (SignupRequest.email signup_data) db →
  str_upper (SignupRequest.role signup_data) ∈ valid_roles →
  signup signup_data uuid4_tenant uuid4_user db =
  (Raise (AttributeError "'SignupRequest' object has no attribute 'tenant_id'"),
   db).
Proof.
  rewrite email_taken_query_first, <- eq_None_not_Some. intros Hfree Hrole.
  unfold signup, mbind, Handler_bind, query. simpl. rewrite Hfree. simpl.
  by rewrite decide_True.
Qed.

(** X21: no signup creates anything: every run raises and leaves the
    database as it was. *)
Lemma signup_raises signup_data uuid4_tenant uuid4_user db :
  ∃ e, signup signup_data uuid4_tenant uuid4_user db = (Raise e, db).
Proof.
  unfold signup, mbind, Handler_bind, query. simpl.
  destruct (query_first _ (users db)); simpl; [by eexists |].
  destruct (decide _); simpl; by eexists.
Qed.

(** What the tenant block does once it has a false value for the attribute:
    the first tenant, or a default tenant created on the spot. *)
Lemma resolve_tenant_fallback tenant_attr uuid4 db :
  truthy tenant_attr = false →
  resolve_tenant tenant_attr uuid4 db =
  match head (tenants db) with
  | Some first_tenant => (Ok (Tenant.id first_tenant), db)
  | None =>
      (Ok uuid4, set_tenants (λ rows, rows ++ [default_tenant_row uuid4]) db)
  end.
Proof.
  intros Hfalse. unfold resolve_tenant. rewrite Hfalse.
  unfold mbind, Handler_bind, query. simpl. by destruct (head (tenants db)).
Qed.

(** C8: a wrong password for a registered email and an unregistered email
    are answered alike, with 401 and one message. *)
Theorem login_bad_credentials_alike registered unregistered db u :
  account_of (LoginRequest.email registered) db = Some u →
  verify_password (LoginRequest.password registered) (User.password_hash u)
    = false →
  ¬ email_taken (LoginRequest.email unregistered) db →
  login registered db =
    Raise (HTTPException 401 "Email or password is incorrect") ∧
  login unregistered db = login registered db.
Proof.
  unfold account_of. intros Hu Hpw Hfree.
  rewrite email_taken_query_first, <- eq_None_not_Some in Hfree.
  unfold login. rewrite Hu, Hfree. simpl. by rewrite Hpw.
Qed.

End AuthFacts.

(** ** The handlers on the example campus *)

(** Closes a decidable goal about concrete rows by computation. *)
Ltac by_computation := apply (bool_decide_unpack _); vm_compute; exact I.

(** C1: a course of another tenant is read.  Alice belongs to tenant 1 and
    the pharmacology course to tenant 2; an enrollment row carrying Alice's
    tenant points at that course.  The two course lookups filter by id and
    activity but not by tenant, unlike the module and lesson lookups, so the
    detail endpoint returns the course and the listing includes it. *)
Theorem cross_tenant_course_is_read :
  Course.tenant_id Example.pharmacology ≠ User.tenant_id Example.alice ∧
  get_course_detail (lib := Example.lib) 21 Example.alice Example.crossed =
    Ok (CourseDetail_of (lib := Example.lib) Example.pharmacology) ∧
  get_my_courses (lib := Example.lib) Example.alice Example.crossed =
    [CourseBasic_of (lib := Example.lib) Example.pharmacology].
Proof. by vm_compute. Qed.

(** C2: a signup with a fresh email and a valid role stops at the read of
    [signup_data.tenant_id]: it raises [AttributeError], and neither a user
    nor a tenant is created, on an empty database as on a populated one. *)
Theorem signup_new_student_raises :
  signup (lib := Example.lib) Example.new_student 100 101 empty_db =
    (Raise (AttributeError "'SignupRequest' object has no attribute 'tenant_id'"),
     empty_db) ∧
  signup (lib := Example.lib) Example.new_student 100 101 Example.campus =
    (Raise (AttributeError "'SignupRequest' object has no attribute 'tenant_id'"),
     Example.campus).
Proof. by vm_compute. Qed.

(** C3 as claimed does not hold: on an empty database Alice has no
    enrollment and lesson 41 does not exist, and the answer is 404, not
    403. *)
Lemma get_lesson_content_missing_not_403 :
  ¬ (∀ (lib : Lib) lesson_id u db,
       (∀ course_id, ¬ enrolled course_id u db) →
       ¬ Exists (λ l, ContentItem.id l = lesson_id) (content_items db) →
       get_lesson_content lesson_id u db =
       Raise (HTTPException 403 "You are not enrolled in this course")).
Proof.
  intros Hclaim.
  specialize (Hclaim Example.lib 41%N Example.alice empty_db).
  assert (Hanswer : get_lesson_content (lib := Example.lib) 41 Example.alice
                      empty_db = Raise (HTTPException 404 "Lesson not found"))
    by reflexivity.
  rewrite Hclaim in Hanswer; [discriminate | |].
  - intros course_id Hen. by apply Exists_nil in Hen.
  - intros Hex. by apply Exists_nil in Hex.
Qed.

Lemma get_lesson_content_existence_first_witness :
  get_lesson_content (lib := Example.lib) 41 Example.alice Example.campus =
  Raise (HTTPException 404 "Lesson not found").
Proof.
  apply (proj1 (get_lesson_content_existence_first (lib := Example.lib)
                  41 Example.alice Example.campus)).
  by_computation.
Defined.

Lemma mark_lesson_complete_twice_witness :
  ∃ r1 db1 p1 r2 db2 p2,
    mark_lesson_complete (lib := Example.lib) 40 Example.alice 60 1000
      Example.campus = (Ok r1, db1) ∧
    progress_rows 10 40 db1 = [p1] ∧
    LessonProgress.is_completed p1 = true ∧
    LessonProgress.completed_at p1 = Some 1000 ∧
    mark_lesson_complete (lib := Example.lib) 40 Example.alice 61 2000 db1
      = (Ok r2, db2) ∧
    progress_rows 10 40 db2 = [p2] ∧
    LessonProgress.is_completed p2 = true ∧
    LessonProgress.completed_at p2 = Some 2000 ∧
    LessonProgress.id p2 = LessonProgress.id p1 ∧
    CompleteResponse.completed_at r2 = 2000 ∧
    length (lesson_progress db2) = length (lesson_progress db1).
Proof.
  apply (mark_lesson_complete_twice (lib := Example.lib)
           40 Example.alice 60 1000 61 2000 Example.campus).
  - intros s c. simpl. lia.
  - exists 20%N. split; [reflexivity | by_computation].
Defined.

Lemma get_course_detail_enrollment_first_witness :
  get_course_detail (lib := Example.lib) 99 Example.alice Example.campus =
    Raise (HTTPException 403 "You are not enrolled in this course") ∧
  get_course_detail (lib := Example.lib) 21 Example.alice
    (mkDB [] [] [] [CourseEnrollment.mk 51 21 10 1] [] [] []) =
    Raise (HTTPException 404 "Course not found") ∧
  ∃ c, c ∈ courses Example.campus ∧ Course.id c = 20%N ∧
       Course.is_active c = true ∧
       get_course_detail (lib := Example.lib) 20 Example.alice Example.campus =
       Ok (CourseDetail_of (lib := Example.lib) c).
Proof.
  split; [| split].
  - apply (proj1 (get_course_detail_enrollment_first (lib := Example.lib)
                    99 Example.alice Example.campus)).
    by_computation.
  - apply (proj1 (proj2 (get_course_detail_enrollment_first
                           (lib := Example.lib) 21 Example.alice
                           (mkDB [] [] [] [CourseEnrollment.mk 51 21 10 1]
                                 [] [] [])))); by_computation.
  - apply (proj2 (proj2 (get_course_detail_enrollment_first
                           (lib := Example.lib) 20 Example.alice
                           Example.campus))); by_computation.
Defined.

Lemma mark_lesson_complete_upsert_witness :
  (∃ r db' row,
     mark_lesson_complete (lib := Example.lib) 40 Example.alice 60 1000
       Example.campus = (Ok r, db') ∧
     progress_rows 10 40 db' = [row] ∧
     LessonProgress.is_completed row = true ∧
     ((progress_rows 10 40 Example.campus = [] ∧
       row = LessonProgress.mk 60 10 40 true (Some 1000) ∧
       lesson_progress db' = lesson_progress Example.campus ++ [row]) ∨
      (∃ i p, progress_rows 10 40 Example.campus = [p] ∧
              lesson_progress Example.campus !! i = Some p ∧
              row = completed p 1000 ∧
              lesson_progress db' = <[i := row]> (lesson_progress Example.campus) ∧
              length (lesson_progress db') =
              length (lesson_progress Example.campus)))) ∧
  (∃ r db' row,
     mark_lesson_complete (lib := Example.lib) 45 Example.alice 60 1000
       Example.school = (Ok r, db') ∧
     progress_rows 10 45 db' = [row] ∧
     LessonProgress.is_completed row = true ∧
     ((progress_rows 10 45 Example.school = [] ∧
       row = LessonProgress.mk 60 10 45 true (Some 1000) ∧
       lesson_progress db' = lesson_progress Example.school ++ [row]) ∨
      (∃ i p, progress_rows 10 45 Example.school = [p] ∧
              lesson_progress Example.school !! i = Some p ∧
              row = completed p 1000 ∧
              lesson_progress db' = <[i := row]> (lesson_progress Example.school) ∧
              length (lesson_progress db') =
              length (lesson_progress Example.school)))).
Proof.
  split.
  - apply (mark_lesson_complete_upsert (lib := Example.lib)
             40 Example.alice 60 1000 Example.campus).
    + intros s c. simpl. lia.
    + exists 20%N. split; [reflexivity | by_computation].
  - apply (mark_lesson_complete_upsert (lib := Example.lib)
             45 Example.alice 60 1000 Example.school).
    + intros s c. unfold progress_rows. simpl.
      rewrite filter_cons, filter_nil. destruct (decide _); simpl; lia.
    + exists 20%N. split; [reflexivity | by_computation].
Defined.

Lemma get_my_courses_exactly_witness :
  CourseBasic_of (lib := Example.lib) Example.anatomy
    ∈ get_my_courses (lib := Example.lib) Example.alice Example.campus ↔
  ∃ c e, c ∈ courses Example.campus ∧ Course.is_active c = true ∧
         e ∈ course_enrollments Example.campus ∧
         CourseEnrollment.student_id e = 10%N ∧
         CourseEnrollment.tenant_id e = 1%N ∧
         CourseEnrollment.course_id e = Course.id c ∧
         CourseBasic_of (lib := Example.lib) Example.anatomy =
         CourseBasic_of (lib := Example.lib) c.
Proof.
  apply (get_my_courses_exactly (lib := Example.lib)
           Example.alice Example.campus).
  by_computation.
Defined.

Lemma login_bad_credentials_alike_witness :
  login (lib := Example.lib)
    (LoginRequest.mk "alice@aiims.example" "looking-glass") Example.campus =
    Raise (HTTPException 401 "Email or password is incorrect") ∧
  login (lib := Example.lib)
    (LoginRequest.mk "nobody@aiims.example" "wonderland") Example.campus =
  login (lib := Example.lib)
    (LoginRequest.mk "alice@aiims.example" "looking-glass") Example.campus.
Proof.
  apply (login_bad_credentials_alike (lib := Example.lib)
           (LoginRequest.mk "alice@aiims.example" "looking-glass")
           (LoginRequest.mk "nobody@aiims.example" "wonderland")
           Example.campus Example.alice).
  - reflexivity.
  - reflexivity.
  - by_computation.
Defined.

Lemma signup_email_taken_witness :
  signup (lib := Example.lib)
    (SignupRequest.mk "alice@aiims.example" "pw" "Another Alice" None "STUDENT")
    100 101 Example.campus =
  (Raise (HTTPException 400 "Email already registered"), Example.campus).
Proof.
  apply (signup_email_taken (lib := Example.lib)
           (SignupRequest.mk "alice@aiims.example" "pw" "Another Alice" None
                             "STUDENT")
           100 101 Example.campus).
  by_computation.
Defined.

Lemma mark_lesson_complete_frame_witness :
  ∃ r db' i row,
    mark_lesson_complete (lib := Example.lib) 40 Example.alice 60 1000
      Example.campus = (Ok r, db') ∧
    tenants db' = tenants Example.campus ∧ users db' = users Example.campus ∧
    courses db' = courses Example.campus ∧
    course_enrollments db' = course_enrollments Example.campus ∧
    modules db' = modules Example.campus ∧
    content_items db' = content_items Example.campus ∧
    lesson_progress db' !! i = Some row ∧
    LessonProgress.student_id row = 10%N ∧
    LessonProgress.content_item_id row = 40%N ∧
    (lesson_progress Example.campus !! i = None ∨
     ∃ p, lesson_progress Example.campus !! i = Some p ∧
          LessonProgress.student_id p = 10%N ∧
          LessonProgress.content_item_id p = 40%N) ∧
    ∀ j, j ≠ i → lesson_progress db' !! j = lesson_progress Example.campus !! j.
Proof.
  apply (mark_lesson_complete_frame (lib := Example.lib)
           40 Example.alice 60 1000 Example.campus).
  exists 20%N. split; [reflexivity | by_computation].
Defined.

(** The scenario of the specification: the lesson is listed as not
    completed, Alice completes it, and the listing shows it completed. *)
Example lesson_listing_after_completion :
  get_module_lessons (lib := Example.lib) 30 Example.alice Example.campus =
    Ok [LessonBasic.mk "00000000-0000-0000-0000-000000000028"
          "Brachial plexus" "TEXT" None 1 false] ∧
  get_module_lessons (lib := Example.lib) 30 Example.alice
    (mark_lesson_complete (lib := Example.lib) 40 Example.alice 60 1000
       Example.campus).2 =
    Ok [LessonBasic.mk "00000000-0000-0000-0000-000000000028"
          "Brachial plexus" "TEXT" None 1 true].
Proof. by vm_compute. Qed.

(** * Further properties of the handlers *)

Lemma insert_by_perm {A} (key : A → Z) (x : A) (l : list A) :
  insert_by key x l ≡ₚ x :: l.
Proof.
  induction l as [|y l IH]; simpl; [done |].
  destruct (decide (key x ≤ key y)); [done |].
  by rewrite IH, Permutation_swap.
Qed.

(** Ordering rearranges the rows and keeps each of them once. *)
Lemma order_by_perm {A} (key : A → Z) (l : list A) : order_by key l ≡ₚ l.
Proof.
  unfold order_by. induction l as [|x l IH]; simpl; [done |].
  by rewrite insert_by_perm, IH.
Qed.

(** ** Courses, continued *)

Section CourseListings.
Context {lib : Lib}.

(** X1: the module listing of a course.  Without an enrollment row the
    answer is 403; with one, the answer is the modules of the course in the
    requester's tenant, each once, ascending by [sequence_order]. *)
Theorem get_course_modules_listing course_id u db :
  (¬ enrolled course_id u db →
   get_course_modules course_id u db =
   Raise (HTTPException 403 "You are not enrolled in this course")) ∧
  (enrolled course_id u db →
   ∃ ms, get_course_modules course_id u db = Ok ms ∧
         Sorted (λ a b, ModuleResponse.sequence_order a ≤
                        ModuleResponse.sequence_order b) ms ∧
         ms ≡ₚ ModuleResponse_of <$>
                 filter (λ m, Module.course_id m = course_id ∧
                              Module.tenant_id m = User.tenant_id u)
                        (modules db)).
Proof.
  unfold get_course_modules. split.
  - intros Hne. apply not_enrolled_query_first in Hne. by rewrite Hne.
  - intros [e He]%enrolled_query_first. rewrite He. simpl.
    eexists. split; [done |]. split.
    + apply (Sorted_fmap _ (λ a b, Module.sequence_order a ≤
                                   Module.sequence_order b)); [done |].
      apply order_by_sorted.
    + unfold query_all. by rewrite order_by_perm.
Qed.

(** X2: the module listing does not look at the course itself.  For an
    enrolled student whose course is inactive or gone, the detail endpoint
    answers 404 while the modules of the course are still listed. *)
Theorem get_course_modules_of_hidden_course course_id u db :
  enrolled course_id u db → ¬ course_visible course_id db →
  get_course_detail course_id u db =
    Raise (HTTPException 404 "Course not found") ∧
  ∃ ms, get_course_modules course_id u db = Ok ms ∧
        ∀ m, m ∈ modules db → Module.course_id m = course_id →
             Module.tenant_id m = User.tenant_id u →
             ModuleResponse_of m ∈ ms.
Proof.
  intros Hen Hhidden. split.
  - unfold get_course_detail.
    apply enrolled_query_first in Hen as [e He]. rewrite He. simpl.
    unfold course_visible in Hhidden.
    rewrite Exists_exists, <- query_first_is_Some, <- eq_None_not_Some in Hhidden.
    unfold visible_course in Hhidden. by rewrite Hhidden.
  - unfold get_course_modules.
    apply enrolled_query_first in Hen as [e He]. rewrite He. simpl.
    eexists. split; [done |]. intros m Hm Hc Ht.
    apply list_elem_of_fmap. exists m. split; [done |].
    apply order_by_elem_of, query_all_elem_of. done.
Qed.

(** X3: the listing and the detail endpoint agree.  Every course of the
    listing can be opened, and every course that can be opened is in the
    listing. *)
Theorem get_my_courses_get_course_detail u db :
  (∀ b, b ∈ get_my_courses u db →
        ∃ c, b = CourseBasic_of c ∧
             get_course_detail (Course.id c) u db = Ok (CourseDetail_of c)) ∧
  (∀ course_id d, get_course_detail course_id u db = Ok d →
        ∃ c, Course.id c = course_id ∧ d = CourseDetail_of c ∧
             CourseBasic_of c ∈ get_my_courses u db).
Proof.
  split.
  - intros b. rewrite get_my_courses_rounds, list_elem_of_bind.
    intros (e & Hb & He). apply query_all_elem_of in He as [[Hs Ht] He].
    destruct (query_first _ (courses db)) as [c|] eqn:Hc; simpl in Hb;
      [| by apply elem_of_nil in Hb].
    apply list_elem_of_singleton in Hb as ->. exists c. split; [done |].
    pose proof (query_first_Some _ _ _ Hc) as [_ [Hid _]].
    unfold get_course_detail.
    assert (Hen : enrolled (Course.id c) u db).
    { apply Exists_exists. exists e. by repeat split. }
    apply enrolled_query_first in Hen as [e' He']. rewrite He'. simpl.
    unfold visible_course in Hc. rewrite Hid, Hc. done.
  - intros course_id d. unfold get_course_detail.
    destruct (query_first _ (course_enrollments db)) as [e|] eqn:He; simpl;
      [| done].
    destruct (query_first _ (courses db)) as [c|] eqn:Hc; simpl; [| done].
    intros [= <-]. exists c.
    pose proof (query_first_Some _ _ _ Hc) as [_ [Hid _]].
    apply query_first_Some in He as [He (Hec & Hes & Het)].
    split; [done |]. split; [done |].
    rewrite get_my_courses_rounds, list_elem_of_bind. exists e. split.
    + unfold visible_course. rewrite Hec, Hc. simpl. by apply list_elem_of_singleton.
    + by apply query_all_elem_of.
Qed.

(** X4: the listing goes through the enrollment rows in table order and
    each row contributes on its own: over a table of enrollments that is two
    tables one after the other, the listing is the two listings one after
    the other.  A repeated enrollment row lists its course again. *)
Theorem get_my_courses_app u ts us cs es1 es2 ms ls ps :
  get_my_courses u (mkDB ts us cs (es1 ++ es2) ms ls ps) =
  get_my_courses u (mkDB ts us cs es1 ms ls ps) ++
  get_my_courses u (mkDB ts us cs es2 ms ls ps).
Proof.
  rewrite !get_my_courses_rounds. simpl. unfold query_all.
  by rewrite filter_app, bind_app.
Qed.

End CourseListings.

(** ** Content, continued *)

Lemma bind_singleton_fmap {A B} (f : A → B) (l : list A) :
  l ≫= (λ x, [f x]) = f <$> l.
Proof. induction l as [|x l IH]; [done |]. csimpl. by rewrite IH. Qed.

(** Rewriting a row that a filter does not select by another one it does
    not select leaves what the filter selects. *)
Lemma filter_insert_other {A} (Q : A → Prop) `{!∀ x, Decision (Q x)}
    (l : list A) (i : nat) (p p' : A) :
  l !! i = Some p → ¬ Q p → ¬ Q p' → filter Q (<[i := p']> l) = filter Q l.
Proof.
  revert i. induction l as [|y l IH]; intros [|i] Hi Hp Hp'; simplify_eq/=.
  - by rewrite !filter_cons, !decide_False.
  - rewrite !filter_cons. by rewrite (IH i).
Qed.

Section LessonListings.
Context {lib : Lib}.

(** The lessons of a module as the listing query selects and orders them. *)
Lemma get_module_lessons_map module_id u db m :
  query_first (λ m, Module.id m = module_id ∧
                    Module.tenant_id m = User.tenant_id u) (modules db) = Some m →
  enrolled (Module.course_id m) u db →
  get_module_lessons module_id u db =
  Ok ((λ l, LessonBasic_of l
              (query_first (progress_for u l) (lesson_progress db))) <$>
      order_by ContentItem.sequence_order
        (filter (λ l, ContentItem.module_id l = module_id ∧
                      ContentItem.tenant_id l = User.tenant_id u)
                (content_items db))).
Proof.
  intros Hm [e He]%enrolled_query_first.
  unfold get_module_lessons. rewrite Hm. simpl. rewrite He. simpl.
  rewrite (for_loop_append _ (λ lesson,
    [LessonBasic_of lesson
       (query_first (progress_for u lesson) (lesson_progress db))])) by done.
  by rewrite bind_singleton_fmap.
Qed.

(** X5: the gate of the lesson listing.  The module is looked up first, in
    the requester's tenant: without it the answer is 404, enrolled or not.
    Then comes the enrollment in the module's course: without it, 403. *)
Theorem get_module_lessons_gate module_id u db :
  (¬ Exists (λ m, Module.id m = module_id ∧
                  Module.tenant_id m = User.tenant_id u) (modules db) →
   get_module_lessons module_id u db =
   Raise (HTTPException 404 "Module not found")) ∧
  (∀ m, query_first (λ m, Module.id m = module_id ∧
                          Module.tenant_id m = User.tenant_id u) (modules db)
          = Some m →
        ¬ enrolled (Module.course_id m) u db →
        get_module_lessons module_id u db =
        Raise (HTTPException 403 "You are not enrolled in this course")).
Proof.
  unfold get_module_lessons. split.
  - rewrite Exists_exists, <- query_first_is_Some, <- eq_None_not_Some.
    by intros ->.
  - intros m -> Hne. simpl. apply not_enrolled_query_first in Hne.
    by rewrite Hne.
Qed.

(** X6: what the lesson listing holds.  Past the gate, it is the lessons of
    the module in the requester's tenant, each once, ascending by
    [sequence_order], each flagged with the requester's own progress; a
    lesson without a progress row is flagged not completed. *)
Theorem get_module_lessons_listing module_id u db ls :
  get_module_lessons module_id u db = Ok ls →
  Sorted (λ a b, LessonBasic.sequence_order a ≤ LessonBasic.sequence_order b) ls ∧
  ls ≡ₚ (λ l, LessonBasic_of l
                (head (progress_rows (User.id u) (ContentItem.id l) db))) <$>
        filter (λ l, ContentItem.module_id l = module_id ∧
                     ContentItem.tenant_id l = User.tenant_id u)
               (content_items db) ∧
  ∀ l, progress_rows (User.id u) (ContentItem.id l) db = [] →
       LessonBasic.is_completed (LessonBasic_of l
         (head (progress_rows (User.id u) (ContentItem.id l) db))) = false.
Proof.
  intros Hok.
  destruct (query_first (λ m, Module.id m = module_id ∧
              Module.tenant_id m = User.tenant_id u) (modules db)) as [m|] eqn:Hm.
  2: { unfold get_module_lessons in Hok. by rewrite Hm in Hok. }
  destruct (decide (enrolled (Module.course_id m) u db)) as [Hen|Hne].
  2: { unfold get_module_lessons in Hok. rewrite Hm in Hok. simpl in Hok.
       apply not_enrolled_query_first in Hne. by rewrite Hne in Hok. }
  rewrite (get_module_lessons_map _ _ _ m Hm Hen) in Hok. injection Hok as <-.
  split; [| split].
  - apply (Sorted_fmap _ (λ a b, ContentItem.sequence_order a ≤
                                 ContentItem.sequence_order b)); [done |].
    apply order_by_sorted.
  - by rewrite order_by_perm.
  - by intros l ->.
Qed.

(** X7: rows of other tenants do not show in the listings.  Removing every
    module and every lesson of another tenant from the database changes
    neither the module listing nor the lesson listing, errors included. *)
Theorem listings_ignore_other_tenants u db :
  (∀ course_id,
     get_course_modules course_id u (own_modules (User.tenant_id u) db) =
     get_course_modules course_id u db) ∧
  (∀ module_id,
     get_module_lessons module_id u
       (own_modules (User.tenant_id u) (own_lessons (User.tenant_id u) db)) =
     get_module_lessons module_id u db).
Proof.
  split.
  - intros course_id. unfold get_course_modules, own_modules, query_all. simpl.
    rewrite list_filter_filter_l; [done | by intros m [_ ?]].
  - intros module_id.
    unfold get_module_lessons, own_modules, own_lessons, query_all, query_first.
    simpl. rewrite !list_filter_filter_l; [done | by intros ? [_ ?] ..].
Qed.

(** X8: a lesson of another tenant is as good as absent for the lesson
    endpoint: removing the lessons of other tenants changes no answer. *)
Theorem get_lesson_content_ignores_other_tenants lesson_id u db :
  get_lesson_content lesson_id u (own_lessons (User.tenant_id u) db) =
  get_lesson_content lesson_id u db.
Proof.
  unfold get_lesson_content, own_lessons, query_first, lesson_in_tenant. simpl.
  rewrite list_filter_filter_l; [done | by intros ? [_ ?]].
Qed.

End LessonListings.

(** ** Completion and the reads *)

Section CompletionAndReads.
Context {lib : Lib}.

(** The progress lookups after a successful completion: the pair's lookup
    finds a completed row, every other lookup finds what it found before. *)
Lemma progress_after_complete lesson_id u uuid4 utcnow db r db' :
  mark_lesson_complete lesson_id u uuid4 utcnow db = (Ok r, db') →
  ∀ u' lesson',
    (User.id u' = User.id u → ContentItem.id lesson' = lesson_id →
     ∃ row, query_first (progress_for u' lesson') (lesson_progress db') = Some row ∧
            LessonProgress.is_completed row = true) ∧
    (User.id u' ≠ User.id u ∨ ContentItem.id lesson' ≠ lesson_id →
     query_first (progress_for u' lesson') (lesson_progress db') =
     query_first (progress_for u' lesson') (lesson_progress db)).
Proof.
  intros Hrun u' lesson'.
  pose proof (mark_lesson_complete_Ok _ _ _ _ _ _ _ Hrun) as Hmay.
  destruct (mark_lesson_complete_effect lesson_id u uuid4 utcnow db Hmay)
    as (lesson & r' & db'' & i & row & _ & Hid & Hrun' & _ & _ & Hfind & Hcase).
  rewrite Hrun in Hrun'. simplify_eq. split.
  - intros Hu Hl. exists row.
    rewrite query_first_at_fst.
    assert (Hsame : query_first_at (progress_for u' lesson') (lesson_progress db'')
                    = query_first_at (progress_for u lesson) (lesson_progress db'')).
    { unfold query_first_at. apply list_find_ext. intros p.
      unfold progress_for. by rewrite Hu, Hl. }
    rewrite Hsame, Hfind. split; [done |].
    by destruct Hcase as [(_ & _ & -> & _) | (p & _ & -> & _)].
  - intros Hother.
    assert (Hnot : ∀ p, progress_for u lesson p → ¬ progress_for u' lesson' p).
    { intros p [Hs Hc] [Hs' Hc']. destruct Hother as [Hne|Hne]; congruence. }
    unfold query_first. f_equal.
    destruct Hcase as [(_ & _ & -> & ->) | (p & Hsome & -> & ->)].
    + rewrite filter_app, filter_cons, filter_nil, decide_False, app_nil_r;
        [done | by apply Hnot].
    + apply query_first_at_Some in Hsome as (Hi & Hp & _).
      apply (filter_insert_other _ _ _ p); [done | by apply Hnot |].
      apply Hnot. by destruct Hp.
Qed.

(** X9: completion has the gate of the lesson endpoint.  Whatever error the
    lesson endpoint raises for a request, completion raises the same one and
    writes nothing; when the lesson endpoint answers, completion succeeds
    and reports the id of the same lesson. *)
Theorem mark_lesson_complete_same_gate lesson_id u uuid4 utcnow db :
  (∀ e, get_lesson_content lesson_id u db = Raise e →
        mark_lesson_complete lesson_id u uuid4 utcnow db = (Raise e, db)) ∧
  (∀ d, get_lesson_content lesson_id u db = Ok d →
        ∃ r db', mark_lesson_complete lesson_id u uuid4 utcnow db = (Ok r, db') ∧
                 CompleteResponse.lesson_id r = LessonDetail.id d ∧
                 CompleteResponse.completed_at r = utcnow).
Proof.
  unfold get_lesson_content, mark_lesson_complete, mbind, Handler_bind, query,
    lift. simpl.
  destruct (query_first _ (content_items db)) as [lesson|]; simpl;
    [| split; [by intros e [= <-] | done]].
  destruct (query_first _ (modules db)) as [module|]; simpl;
    [| split; [by intros e [= <-] | done]].
  destruct (query_first _ (course_enrollments db)) as [en|]; simpl;
    [| split; [by intros e [= <-] | done]].
  split; [done |]. intros d [= <-].
  destruct (query_first_at _ (lesson_progress db)) as [[i p]|]; simpl;
    by eexists _, _.
Qed.

(** X10: reading after completing.  Where the pairs of the progress table
    are single, after a successful completion the lesson endpoint answers
    for the same request, with what it answered before except that the
    lesson is flagged completed. *)
Theorem get_lesson_content_after_complete lesson_id u uuid4 utcnow db r db' :
  progress_unique db →
  mark_lesson_complete lesson_id u uuid4 utcnow db = (Ok r, db') →
  ∃ d, get_lesson_content lesson_id u db = Ok d ∧
       get_lesson_content lesson_id u db' = Ok (LessonDetail_with true d).
Proof.
  intros _ Hrun.
  pose proof (mark_lesson_complete_Ok _ _ _ _ _ _ _ Hrun) as Hmay.
  pose proof Hmay as (lesson & module & e & Hl & Hm & He)%may_complete_inv.
  destruct (mark_lesson_complete_effect lesson_id u uuid4 utcnow db Hmay)
    as (lesson' & r' & db'' & i & row & Hl' & Hid & Hrun' & _ & Hdb' & _).
  rewrite Hrun in Hrun'. simplify_eq.
  destruct (progress_after_complete _ _ _ _ _ _ _ Hrun u lesson)
    as [(row' & Hrow & Hdone) _]; [done.. |].
  unfold get_lesson_content. rewrite Hdb'. simpl.
  rewrite Hl. simpl. rewrite Hm. simpl. rewrite He. simpl.
  eexists. split; [done |]. rewrite Hrow.
  unfold LessonDetail_of, LessonDetail_with. simpl. by rewrite Hdone.
Qed.

(** A completion, whatever its outcome, writes to the progress table
    only. *)
Lemma mark_lesson_complete_tables lesson_id u uuid4 utcnow db :
  let db' := (mark_lesson_complete lesson_id u uuid4 utcnow db).2 in
  users db' = users db ∧ courses db' = courses db ∧
  course_enrollments db' = course_enrollments db ∧
  modules db' = modules db ∧ content_items db' = content_items db.
Proof.
  unfold mark_lesson_complete, mbind, Handler_bind, query, lift. simpl.
  destruct (query_first _ (content_items db)) as [lesson|]; simpl; [| done].
  destruct (query_first _ (modules db)) as [module|]; simpl; [| done].
  destruct (query_first _ (course_enrollments db)) as [en|]; simpl; [| done].
  by destruct (query_first_at _ (lesson_progress db)) as [[i p]|].
Qed.

(** The lesson listing reads the progress table through the requester's
    lookups only. *)
Lemma get_module_lessons_ext module_id u db db' (rel : bool → bool → Prop) :
  modules db' = modules db →
  course_enrollments db' = course_enrollments db →
  content_items db' = content_items db →
  (∀ l, rel (is_completed_of (query_first (progress_for u l) (lesson_progress db)))
            (is_completed_of (query_first (progress_for u l) (lesson_progress db')))) →
  match get_module_lessons module_id u db, get_module_lessons module_id u db' with
  | Ok ls, Ok ls' =>
      Forall2 (λ b b', ∃ flag', rel (LessonBasic.is_completed b) flag' ∧
                                b' = LessonBasic_with flag' b) ls ls'
  | Raise e, Raise e' => e = e'
  | _, _ => False
  end.
Proof.
  intros Hm He Hc Hrel. unfold get_module_lessons. rewrite Hm, He, Hc.
  destruct (query_first _ (modules db)) as [m|]; simpl; [| done].
  destruct (query_first _ (course_enrollments db)) as [e|]; simpl; [| done].
  rewrite !(for_loop_append _ (λ lesson, [LessonBasic_of lesson
              (query_first (progress_for u lesson) (lesson_progress _))]))
    by done.
  rewrite !bind_singleton_fmap. apply Forall2_fmap, Forall_Forall2_diag.
  apply Forall_forall. intros l _. eexists. split; [apply Hrel | done].
Qed.

(** X11: a completion shows to nobody else and on no other lesson.  For
    another student, or for another lesson, the lesson endpoint answers after
    a successful completion what it answered before; for another student
    the lesson listing of every module does too. *)
Theorem mark_lesson_complete_invisible lesson_id u uuid4 utcnow db r db' :
  mark_lesson_complete lesson_id u uuid4 utcnow db = (Ok r, db') →
  (∀ lesson_id' u',
     User.id u' ≠ User.id u ∨ lesson_id' ≠ lesson_id →
     get_lesson_content lesson_id' u' db' = get_lesson_content lesson_id' u' db) ∧
  (∀ module_id u',
     User.id u' ≠ User.id u →
     get_module_lessons module_id u' db' = get_module_lessons module_id u' db).
Proof.
  intros Hrun.
  pose proof (mark_lesson_complete_tables lesson_id u uuid4 utcnow db) as Htables.
  rewrite Hrun in Htables. simpl in Htables.
  destruct Htables as (_ & _ & He & Hm & Hc).
  pose proof (progress_after_complete _ _ _ _ _ _ _ Hrun) as Hprogress.
  split.
  - intros lesson_id' u' Hother. unfold get_lesson_content. rewrite He, Hm, Hc.
    destruct (query_first _ (content_items db)) as [lesson'|] eqn:Hl'; simpl;
      [| done].
    destruct (query_first _ (modules db)) as [module'|]; simpl; [| done].
    destruct (query_first _ (course_enrollments db)) as [e'|]; simpl; [| done].
    apply query_first_Some in Hl' as [_ [Hid' _]].
    rewrite (proj2 (Hprogress u' lesson')); [done |].
    destruct Hother; [by left | right; congruence].
  - intros module_id u' Hother.
    pose proof (get_module_lessons_ext module_id u' db db' eq Hm He Hc) as Hext.
    destruct (get_module_lessons module_id u' db) as [ls|e],
             (get_module_lessons module_id u' db') as [ls'|e'].
    + f_equal. symmetry. apply list_eq_Forall2.
      eapply Forall2_impl; [apply Hext |].
      * intros l. rewrite (proj2 (Hprogress u' l)); [done | by left].
      * intros b b' (flag & <- & ->). by destruct b.
    + destruct Hext. intros l. rewrite (proj2 (Hprogress u' l)); [done | by left].
    + destruct Hext. intros l. rewrite (proj2 (Hprogress u' l)); [done | by left].
    + f_equal. symmetry. apply Hext.
      intros l. rewrite (proj2 (Hprogress u' l)); [done | by left].
Qed.

(** X12: the requester's own lesson listing after a successful completion,
    where the pairs of the progress table are single.  It has the entries it had, in the same order; an entry either is as it
    was or is the entry of the completed lesson now flagged completed, and
    no flag goes back to not completed. *)
Theorem get_module_lessons_after_complete
    lesson_id u uuid4 utcnow db r db' module_id ls :
  progress_unique db →
  mark_lesson_complete lesson_id u uuid4 utcnow db = (Ok r, db') →
  get_module_lessons module_id u db = Ok ls →
  ∃ ls', get_module_lessons module_id u db' = Ok ls' ∧
         Forall2 (λ b b', b' = b ∨ b' = LessonBasic_with true b) ls ls'.
Proof.
  intros _ Hrun Hls.
  pose proof (mark_lesson_complete_tables lesson_id u uuid4 utcnow db) as Htables.
  rewrite Hrun in Htables. simpl in Htables.
  destruct Htables as (_ & _ & He & Hm & Hc).
  pose proof (progress_after_complete _ _ _ _ _ _ _ Hrun) as Hprogress.
  pose proof (get_module_lessons_ext module_id u db db'
                (λ flag flag', flag' = flag ∨ flag' = true) Hm He Hc) as Hext.
  rewrite Hls in Hext.
  destruct (get_module_lessons module_id u db') as [ls'|e'].
  - exists ls'. split; [done |].
    eapply Forall2_impl; [apply Hext |].
    + intros l. destruct (decide (ContentItem.id l = lesson_id)) as [Hid|Hid].
      * destruct (Hprogress u l) as [(row & -> & Hdone) _]; [done.. |].
        by right.
      * rewrite (proj2 (Hprogress u l)); [by left | by right].
    + intros b b' (flag & [-> | ->] & ->); [left; by destruct b | by right].
  - destruct Hext. intros l.
    destruct (decide (ContentItem.id l = lesson_id)) as [Hid|Hid].
    + destruct (Hprogress u l) as [(row & -> & Hdone) _]; [done.. |]. by right.
    + rewrite (proj2 (Hprogress u l)); [by left | by right].
Qed.

(** X13: completion never removes a progress row and never takes a
    completion back.  Whatever the outcome, every place of the progress
    table still holds a row of the same identifier, student and lesson, and
    a row that was completed is completed. *)
Theorem mark_lesson_complete_monotone lesson_id u uuid4 utcnow db j q :
  lesson_progress db !! j = Some q →
  ∃ q', lesson_progress (mark_lesson_complete lesson_id u uuid4 utcnow db).2 !! j
          = Some q' ∧
        LessonProgress.id q' = LessonProgress.id q ∧
        LessonProgress.student_id q' = LessonProgress.student_id q ∧
        LessonProgress.content_item_id q' = LessonProgress.content_item_id q ∧
        (LessonProgress.is_completed q = true →
         LessonProgress.is_completed q' = true).
Proof.
  intros Hq.
  destruct (mark_lesson_complete lesson_id u uuid4 utcnow db) as [[r|e] db']
    eqn:Hrun; simpl.
  2: { rewrite (mark_lesson_complete_Raise _ _ _ _ _ _ _ Hrun). by exists q. }
  pose proof (mark_lesson_complete_Ok _ _ _ _ _ _ _ Hrun) as Hmay.
  destruct (mark_lesson_complete_effect lesson_id u uuid4 utcnow db Hmay)
    as (lesson & r' & db'' & i & row & _ & _ & Hrun' & _ & _ & _ & Hcase).
  rewrite Hrun in Hrun'. simplify_eq.
  destruct Hcase as [(_ & _ & -> & ->) | (p & Hsome & -> & ->)].
  - exists q. split; [| done]. apply lookup_app_l_Some. done.
  - apply query_first_at_Some in Hsome as (Hi & _ & _).
    destruct (decide (j = i)) as [->|Hne].
    + exists (completed p utcnow). rewrite list_lookup_insert_eq;
        [| by eapply lookup_lt_Some]. by simplify_eq.
    + exists q. by rewrite list_lookup_insert_ne.
Qed.

End CompletionAndReads.

(** ** Authentication, continued *)

Section Credentials.
Context {lib : Lib}.

(** X14: who gets a token.  [login] answers with a token exactly when the
    first user row with the email verifies the password and is active; the
    token is then a bearer token made for that user's id. *)
Theorem login_Ok login_data db t :
  login login_data db = Ok t ↔
  ∃ u, account_of (LoginRequest.email login_data) db = Some u ∧
       verify_password (LoginRequest.password login_data) (User.password_hash u)
         = true ∧
       User.is_active u = true ∧
       t = TokenResponse.mk (create_token (str_of_UUID (User.id u))) "bearer".
Proof.
  unfold login, account_of.
  destruct (query_first _ (users db)) as [u|]; simpl.
  - destruct (verify_password _ _) eqn:Hpw; simpl.
    + destruct (User.is_active u) eqn:Hact; simpl.
      * split; [intros [= <-]; by exists u | by intros (? & [= <-] & _ & _ & ->)].
      * split; [done | intros (? & [= <-] & _ & ? & _); congruence].
    + split; [done | intros (? & [= <-] & ? & _); congruence].
  - split; [done | by intros (? & ? & _)].
Qed.

(** X15: a disabled account.  With the right password the answer is 403
    "Your account is disabled"; the password is checked first, so with a
    wrong password the answer is the 401 of any bad credential. *)
Theorem login_disabled login_data db u :
  account_of (LoginRequest.email login_data) db = Some u →
  User.is_active u = false →
  login login_data db =
  if verify_password (LoginRequest.password login_data) (User.password_hash u)
  then Raise (HTTPException 403 "Your account is disabled")
  else Raise (HTTPException 401 "Email or password is incorrect").
Proof.
  unfold login, account_of. intros -> Hact. simpl.
  destruct (verify_password _ _); simpl; [by rewrite Hact | done].
Qed.

(** X16: a role outside of ADMIN, FACULTY, STUDENT (after upper-casing) is
    refused with 400 and the list of the valid roles, once the email is
    known to be free; nothing is written. *)
Theorem signup_invalid_role signup_data uuid4_tenant uuid4_user db :
  ¬ email_taken (SignupRequest.email signup_data) db →
  str_upper (SignupRequest.role signup_data) ∉ valid_roles →
  signup signup_data uuid4_tenant uuid4_user db =
  (Raise (HTTPException 400
            "Invalid role. Must be one of: ADMIN, FACULTY, STUDENT"), db).
Proof.
  rewrite email_taken_query_first, <- eq_None_not_Some. intros Hfree Hrole.
  unfold signup, mbind, Handler_bind, query. simpl. rewrite Hfree. simpl.
  by rewrite decide_False.
Qed.

(** X17: the names that pass the role check of [signup] are exactly the
    names of the members of [UserRole], so that the member lookup which
    follows the check cannot raise [KeyError]; a member's value is its name. *)
Theorem valid_roles_are_members :
  (∀ name, name ∈ valid_roles ↔ is_Some (UserRole_getitem name)) ∧
  (∀ name r, UserRole_getitem name = Some r ↔ UserRole_value r = name).
Proof.
  split.
  - intros name. unfold valid_roles, UserRole_getitem.
    rewrite !elem_of_cons, elem_of_nil.
    repeat case_decide; subst;
      first [ split; [intros _; by eexists | intros _; auto]
            | split; [tauto | intros [? [=]]] ].
  - intros name r. unfold UserRole_getitem.
    repeat case_decide; destruct r; simpl; split; intros Hname; simplify_eq;
      done.
Qed.

(** X18: the tenant block of [signup] settles on one tenant.  Run with a
    false value for the attribute, it answers the first tenant, creating the
    default tenant only when the table is empty; run again on the database
    it left, it answers the same tenant and writes nothing, so no second
    default tenant is ever created. *)
Theorem resolve_tenant_settles tenant_attr uuid4 uuid4' db :
  truthy tenant_attr = false →
  ∃ tenant_id db1,
    resolve_tenant tenant_attr uuid4 db = (Ok tenant_id, db1) ∧
    (tenants db ≠ [] → db1 = db) ∧
    (tenants db = [] → tenants db1 = [default_tenant_row uuid4]) ∧
    Tenant.id <$> head (tenants db1) = Some tenant_id ∧
    resolve_tenant tenant_attr uuid4' db1 = (Ok tenant_id, db1).
Proof.
  intros Hfalse. rewrite !resolve_tenant_fallback by done.
  destruct (tenants db) as [|first_tenant rest] eqn:Hts; simpl.
  - eexists _, _. split; [done |]. rewrite resolve_tenant_fallback by done.
    simpl. rewrite Hts. done.
  - eexists _, _. split; [done |]. rewrite resolve_tenant_fallback by done.
    rewrite Hts. done.
Qed.

End Credentials.

(** ** The further properties on the example campuses *)

Lemma get_course_modules_listing_witness :
  get_course_modules (lib := Example.lib) 20 Example.bob Example.school =
    Raise (HTTPException 403 "You are not enrolled in this course") ∧
  ∃ ms, get_course_modules (lib := Example.lib) 20 Example.alice Example.school
          = Ok ms ∧
        Sorted (λ a b, ModuleResponse.sequence_order a ≤
                       ModuleResponse.sequence_order b) ms ∧
        ms ≡ₚ ModuleResponse_of (lib := Example.lib) <$>
                filter (λ m, Module.course_id m = 20%N ∧ Module.tenant_id m = 1%N)
                       (modules Example.school).
Proof.
  split.
  - apply (proj1 (get_course_modules_listing (lib := Example.lib)
                    20 Example.bob Example.school)).
    by_computation.
  - apply (proj2 (get_course_modules_listing (lib := Example.lib)
                    20 Example.alice Example.school)).
    by_computation.
Defined.

Lemma get_course_modules_of_hidden_course_witness :
  get_course_detail (lib := Example.lib) 22 Example.alice Example.school =
    Raise (HTTPException 404 "Course not found") ∧
  ∃ ms, get_course_modules (lib := Example.lib) 22 Example.alice Example.school
          = Ok ms ∧
        ∀ m, m ∈ modules Example.school → Module.course_id m = 22%N →
             Module.tenant_id m = 1%N →
             ModuleResponse_of (lib := Example.lib) m ∈ ms.
Proof.
  apply (get_course_modules_of_hidden_course (lib := Example.lib)
           22 Example.alice Example.school); by_computation.
Defined.

Lemma get_my_courses_get_course_detail_witness :
  ∃ c, CourseBasic_of (lib := Example.lib) Example.anatomy =
       CourseBasic_of (lib := Example.lib) c ∧
       get_course_detail (lib := Example.lib) (Course.id c) Example.alice
         Example.school = Ok (CourseDetail_of (lib := Example.lib) c).
Proof.
  apply (proj1 (get_my_courses_get_course_detail (lib := Example.lib)
                  Example.alice Example.school)).
  vm_compute. left.
Defined.

Lemma get_module_lessons_gate_witness :
  get_module_lessons (lib := Example.lib) 33 Example.alice Example.school =
    Raise (HTTPException 404 "Module not found") ∧
  get_module_lessons (lib := Example.lib) 30 Example.bob Example.school =
    Raise (HTTPException 403 "You are not enrolled in this course").
Proof.
  split.
  - apply (proj1 (get_module_lessons_gate (lib := Example.lib)
                    33 Example.alice Example.school)).
    by_computation.
  - apply (proj2 (get_module_lessons_gate (lib := Example.lib)
                    30 Example.bob Example.school) Example.chapter1).
    + reflexivity.
    + by_computation.
Defined.

Lemma get_module_lessons_listing_witness :
  let ls := [LessonBasic.mk "00000000-0000-0000-0000-000000000028"
               "Brachial plexus" "TEXT" None 1 false;
             LessonBasic.mk "00000000-0000-0000-0000-00000000002d"
               "Scapula" "PDF" None 2 false;
             LessonBasic.mk "00000000-0000-0000-0000-00000000002b"
               "Axilla" "VIDEO" (Some 12) 3 false] in
  Sorted (λ a b, LessonBasic.sequence_order a ≤ LessonBasic.sequence_order b) ls ∧
  ls ≡ₚ (λ l, LessonBasic_of (lib := Example.lib) l
                (head (progress_rows 10 (ContentItem.id l) Example.school))) <$>
        filter (λ l, ContentItem.module_id l = 30%N ∧
                     ContentItem.tenant_id l = 1%N)
               (content_items Example.school) ∧
  ∀ l, progress_rows 10 (ContentItem.id l) Example.school = [] →
       LessonBasic.is_completed (LessonBasic_of (lib := Example.lib) l
         (head (progress_rows 10 (ContentItem.id l) Example.school))) = false.
Proof.
  apply (get_module_lessons_listing (lib := Example.lib)
           30 Example.alice Example.school).
  reflexivity.
Defined.

Lemma mark_lesson_complete_same_gate_witness :
  mark_lesson_complete (lib := Example.lib) 44 Example.alice 60 1000
    Example.school =
    (Raise (HTTPException 404 "Lesson not found"), Example.school) ∧
  mark_lesson_complete (lib := Example.lib) 40 Example.bob 60 1000
    Example.school =
    (Raise (HTTPException 403 "You are not enrolled in this course"),
     Example.school).
Proof.
  split.
  - apply (proj1 (mark_lesson_complete_same_gate (lib := Example.lib)
                    44 Example.alice 60 1000 Example.school)).
    reflexivity.
  - apply (proj1 (mark_lesson_complete_same_gate (lib := Example.lib)
                    40 Example.bob 60 1000 Example.school)).
    reflexivity.
Defined.

Lemma get_lesson_content_after_complete_witness :
  ∃ d, get_lesson_content (lib := Example.lib) 45 Example.alice Example.school
         = Ok d ∧
       get_lesson_content (lib := Example.lib) 45 Example.alice
         (mark_lesson_complete (lib := Example.lib) 45 Example.alice 60 1000
            Example.school).2 = Ok (LessonDetail_with true d).
Proof.
  apply (get_lesson_content_after_complete (lib := Example.lib)
           45 Example.alice 60 1000 Example.school
           (CompleteResponse.mk "Lesson marked as complete"
              "00000000-0000-0000-0000-00000000002d" 1000)).
  - intros s c. unfold progress_rows. simpl.
    rewrite filter_cons, filter_nil. destruct (decide _); simpl; lia.
  - reflexivity.
Defined.

Lemma mark_lesson_complete_invisible_witness :
  (∀ lesson_id' u',
     User.id u' ≠ 10%N ∨ lesson_id' ≠ 45%N →
     get_lesson_content (lib := Example.lib) lesson_id' u'
       (mark_lesson_complete (lib := Example.lib) 45 Example.alice 60 1000
          Example.school).2 =
     get_lesson_content (lib := Example.lib) lesson_id' u' Example.school) ∧
  (∀ module_id u',
     User.id u' ≠ 10%N →
     get_module_lessons (lib := Example.lib) module_id u'
       (mark_lesson_complete (lib := Example.lib) 45 Example.alice 60 1000
          Example.school).2 =
     get_module_lessons (lib := Example.lib) module_id u' Example.school).
Proof.
  apply (mark_lesson_complete_invisible (lib := Example.lib)
           45 Example.alice 60 1000 Example.school
           (CompleteResponse.mk "Lesson marked as complete"
              "00000000-0000-0000-0000-00000000002d" 1000)).
  reflexivity.
Defined.

Lemma get_module_lessons_after_complete_witness :
  ∃ ls', get_module_lessons (lib := Example.lib) 30 Example.alice
           (mark_lesson_complete (lib := Example.lib) 45 Example.alice 60 1000
              Example.school).2 = Ok ls' ∧
         Forall2 (λ b b', b' = b ∨ b' = LessonBasic_with true b)
           [LessonBasic.mk "00000000-0000-0000-0000-000000000028"
              "Brachial plexus" "TEXT" None 1 false;
            LessonBasic.mk "00000000-0000-0000-0000-00000000002d"
              "Scapula" "PDF" None 2 false;
            LessonBasic.mk "00000000-0000-0000-0000-00000000002b"
              "Axilla" "VIDEO" (Some 12) 3 false] ls'.
Proof.
  apply (get_module_lessons_after_complete (lib := Example.lib)
           45 Example.alice 60 1000 Example.school
           (CompleteResponse.mk "Lesson marked as complete"
              "00000000-0000-0000-0000-00000000002d" 1000)).
  - intros s c. unfold progress_rows. simpl.
    rewrite filter_cons, filter_nil. destruct (decide _); simpl; lia.
  - reflexivity.
  - reflexivity.
Defined.

Lemma mark_lesson_complete_monotone_witness :
  ∃ q', lesson_progress
          (mark_lesson_complete (lib := Example.lib) 45 Example.alice 60 1000
             Example.school).2 !! 0%nat = Some q' ∧
        LessonProgress.id q' = 70%N ∧
        LessonProgress.student_id q' = 10%N ∧
        LessonProgress.content_item_id q' = 45%N ∧
        (false = true → LessonProgress.is_completed q' = true).
Proof.
  apply (mark_lesson_complete_monotone (lib := Example.lib)
           45 Example.alice 60 1000 Example.school 0
           (LessonProgress.mk 70 10 45 false None)).
  reflexivity.
Defined.

Lemma completions_unique_witness :
  progress_unique
    (foldl (λ db c,
       (mark_lesson_complete (lib := Example.lib) (completion_lesson c)
          (completion_user c) (completion_uuid4 c) (completion_utcnow c) db).2)
       Example.school
       [mkCompletion 45 Example.alice 60 1000;
        mkCompletion 40 Example.alice 61 1001;
        mkCompletion 40 Example.bob 62 1002;
        mkCompletion 45 Example.alice 63 1003]).
Proof.
  apply (completions_unique (lib := Example.lib)).
  intros s c. unfold progress_rows. simpl. rewrite filter_cons, filter_nil.
  destruct (decide _); simpl; lia.
Defined.

Lemma login_disabled_witness :
  login (lib := Example.lib)
    (LoginRequest.mk "carol@aiims.example" "singer") Example.school =
  Raise (HTTPException 403 "Your account is disabled").
Proof.
  apply (login_disabled (lib := Example.lib)
           (LoginRequest.mk "carol@aiims.example" "singer") Example.school
           Example.carol); reflexivity.
Defined.

Lemma signup_invalid_role_witness :
  signup (lib := Example.lib)
    (SignupRequest.mk "dan@aiims.example" "pw" "Dan" None "dean")
    100 101 Example.school =
  (Raise (HTTPException 400
            "Invalid role. Must be one of: ADMIN, FACULTY, STUDENT"),
   Example.school).
Proof.
  apply (signup_invalid_role (lib := Example.lib)
           (SignupRequest.mk "dan@aiims.example" "pw" "Dan" None "dean")
           100 101 Example.school); by_computation.
Defined.

Lemma resolve_tenant_settles_witness :
  ∃ tenant_id db1,
    resolve_tenant (lib := Example.lib) PyNone 100 empty_db = (Ok tenant_id, db1) ∧
    (tenants empty_db ≠ [] → db1 = empty_db) ∧
    (tenants empty_db = [] → tenants db1 = [default_tenant_row 100]) ∧
    Tenant.id <$> head (tenants db1) = Some tenant_id ∧
    resolve_tenant (lib := Example.lib) PyNone 101 db1 = (Ok tenant_id, db1).
Proof.
  apply (resolve_tenant_settles (lib := Example.lib) PyNone 100 101 empty_db).
  reflexivity.
Defined.

Lemma get_course_detail_tenant_witness :
  ∃ c, c ∈ courses Example.campus ∧ Course.tenant_id c = 1%N ∧
       Course.id c = 20%N ∧
       CourseDetail_of (lib := Example.lib) Example.anatomy =
       CourseDetail_of (lib := Example.lib) c.
Proof.
  apply (get_course_detail_tenant (lib := Example.lib)
           20 Example.alice Example.campus).
  - intros e c He Hc _. simpl in He, Hc.
    apply list_elem_of_singleton in He. apply list_elem_of_singleton in Hc.
    by subst.
  - reflexivity.
Defined.

Lemma get_my_courses_tenant_witness :
  ∃ c, c ∈ courses Example.campus ∧ Course.tenant_id c = 1%N ∧
       CourseBasic_of (lib := Example.lib) Example.anatomy =
       CourseBasic_of (lib := Example.lib) c.
Proof.
  apply (get_my_courses_tenant (lib := Example.lib)
           Example.alice Example.campus).
  - intros e c He Hc _. simpl in He, Hc.
    apply list_elem_of_singleton in He. apply list_elem_of_singleton in Hc.
    by subst.
  - vm_compute. left.
Defined.

Lemma get_lesson_content_tenant_witness :
  ∃ l, l ∈ content_items Example.school ∧ ContentItem.tenant_id l = 1%N ∧
       ContentItem.id l = 43%N ∧
       LessonDetail.mk "00000000-0000-0000-0000-00000000002b" "Axilla" "VIDEO"
         (Some "s3://axilla") None (Some 12) 3 false =
       LessonDetail_of (lib := Example.lib) l
         (head (progress_rows 10 (ContentItem.id l) Example.school)).
Proof.
  apply (get_lesson_content_tenant (lib := Example.lib)
           43 Example.alice Example.school).
  reflexivity.
Defined.
